(** * KnowledgeScout: the answer-generation core of [src/server.js]

    A shallow embedding of [generateAnswerFromContent] and the functions it
    calls ([generateContextualAnswer], [getQuestionType],
    [findRelevantContext], [generateFallbackAnswer]), followed by the
    properties of the specification that concern them.  The second part
    embeds the code around the generator: MIME types and text extraction,
    the upload, process, ask and history handlers of [src/server.js], the
    document router, and the file list of [src/script.js].

    Representation choices.
    - A JavaScript string is a sequence of UTF-16 code units.  The embedding
      covers the strings whose code units are all below 256 (Basic Latin and
      Latin-1 Supplement): such a string is the [string] of its code units.
      On this range [toLowerCase] is unit-wise and length preserving, and
      the white space of [trim] and of the regular expression class [\s] is
      the seven units 9-13, 32 and 160.
    - A JavaScript number is a binary64 value; a rational ([Q]) in the model
      stands for the binary64 value nearest to it.  A literal the code
      returns unchanged is written as in the source.  Where the code
      computes, [binary64] rounds each literal and the exact result of each
      operation to the nearest binary64 value, ties to even, as the
      arithmetic of the language does, and the result is that value
      exactly.
    - [undefined] and [null] are [None]; a method call on [undefined] is the
      one way this code could raise, and is modelled by [Throw]. *)

From Stdlib Require Import Bool Arith Lia List Ascii String ZArith QArith Qminmax.
From Stdlib Require Import DecimalString Qround Qpower Qreduction.
From Stdlib Require Import PrimFloat FloatOps SpecFloat Uint63.
Import ListNotations.

Close Scope Q_scope.
Local Open Scope string_scope.
Local Open Scope list_scope.
Local Open Scope nat_scope.

(** ** JavaScript string primitives *)

Module JsString.

(** [WhiteSpace] and [LineTerminator] code units below 256: TAB, LF, VT, FF,
    CR, SP and NBSP. *)
Definition isWhiteSpace (c : ascii) : bool :=
  let n := nat_of_ascii c in
  ((9 <=? n) && (n <=? 13)) || (n =? 32) || (n =? 160).

(** The class [[.!?]] of the sentence splitter. *)
Definition isSentenceEnd (c : ascii) : bool :=
  let n := nat_of_ascii c in
  (n =? 46) || (n =? 33) || (n =? 63).

(** Lower-casing of one code unit: A-Z, and the Latin-1 capitals
    U+00C0-U+00DE except the multiplication sign U+00D7. *)
Definition lowerUnit (c : ascii) : ascii :=
  let n := nat_of_ascii c in
  if ((65 <=? n) && (n <=? 90))
     || ((192 <=? n) && (n <=? 222) && negb (n =? 215))
  then ascii_of_nat (n + 32)
  else c.

(** [String.prototype.toLowerCase] *)
Fixpoint toLowerCase (s : string) : string :=
  match s with
  | EmptyString => EmptyString
  | String c s' => String (lowerUnit c) (toLowerCase s')
  end.

Fixpoint trimStart (s : string) : string :=
  match s with
  | EmptyString => EmptyString
  | String c s' => if isWhiteSpace c then trimStart s' else s
  end.

Fixpoint trimEnd (s : string) : string :=
  match s with
  | EmptyString => EmptyString
  | String c s' =>
      match trimEnd s' with
      | EmptyString => if isWhiteSpace c then EmptyString else String c EmptyString
      | t => String c t
      end
  end.

(** [String.prototype.trim] *)
Definition trim (s : string) : string := trimEnd (trimStart s).

(** [String.prototype.includes]: [w] occurs in [s] at some position. *)
Fixpoint includes (s w : string) : bool :=
  String.prefix w s ||
  match s with
  | EmptyString => false
  | String _ s' => includes s' w
  end.

(** [s.split(/[C]+/)] for a character class [C] given by [d]: the pieces
    between maximal runs of delimiters.  A leading or trailing run leaves an
    empty first or last piece, and the empty string splits into one empty
    piece.  [inrun] tells that the previous unit was a delimiter. *)
Fixpoint splitRuns (d : ascii -> bool) (inrun : bool) (s : string) : list string :=
  match s with
  | EmptyString => [EmptyString]
  | String c s' =>
      if d c then
        if inrun then splitRuns d true s' else EmptyString :: splitRuns d true s'
      else
        match splitRuns d false s' with
        | t :: ts => String c t :: ts
        | [] => [String c EmptyString]
        end
  end.

Definition split (d : ascii -> bool) (s : string) : list string :=
  splitRuns d false s.

(** [Array.prototype.slice(a, b)] for [0 <= a <= b]. *)
Definition slice {A : Type} (a b : nat) (l : list A) : list A :=
  firstn (b - a) (skipn a l).

(** [Array.prototype.join] *)
Definition join (sep : string) (l : list string) : string := String.concat sep l.

(** [!s] for a string or [null]. *)
Definition falsy (v : option string) : bool :=
  match v with
  | None => true
  | Some s => (String.length s =? 0)%nat
  end.

End JsString.
Import JsString.

(** ** JavaScript numbers *)

Module Binary64.
Local Open Scope Q_scope.

Definition pow2 (e : Z) : Q := 2 ^ e.

(** The exponent of the binade of a positive rational: the [k] with
    [2^k <= q < 2^(k+1)]. *)
Definition floorLog2 (q : Q) : Z :=
  let k := (Z.log2 (Qnum q) - Z.log2 (Zpos (Qden q)))%Z in
  if Qle_bool (pow2 k) q then k else (k - 1)%Z.

(** Rounding to the nearest integer, a tie going to the even one. *)
Definition roundHalfEven (q : Q) : Z :=
  let f := Qfloor q in
  match Qcompare (q - inject_Z f) (1#2) with
  | Lt => f
  | Gt => (f + 1)%Z
  | Eq => if Z.even f then f else (f + 1)%Z
  end.

(** The exponent of the last place of the binary64 values around a positive
    [q]: 52 below the binade, and no less than -1074 (subnormal values). *)
Definition exponentOf (q : Q) : Z := Z.max (floorLog2 q - 52) (-1074).

Definition roundPositive (q : Q) : Q :=
  let e := exponentOf q in
  inject_Z (roundHalfEven (q / pow2 e)) * pow2 e.

(** The binary64 value nearest to a rational of magnitude below 2^1024, as
    a reduced fraction. *)
Definition binary64 (q : Q) : Q :=
  Qred match Qcompare q 0 with
       | Eq => 0
       | Gt => roundPositive q
       | Lt => - roundPositive (- q)
       end.

(** [x + y] and [x * y] on numbers. *)
Definition add (x y : Q) : Q := binary64 (x + y).
Definition mul (x y : Q) : Q := binary64 (x * y).

(** The number that is the [length] of an array. *)
Definition ofLength (n : nat) : Q := binary64 (inject_Z (Z.of_nat n)).

(** [Math.min] on two numbers. *)
Definition min (x y : Q) : Q := Qmin x y.

(** The rational a finite binary64 value of the kernel equals. *)
Definition valueOf (f : float) : Q :=
  match Prim2SF f with
  | S754_finite s m e =>
      Qred ((if s then - (1) else 1) * inject_Z (Zpos m) * pow2 e)
  | _ => 0
  end.

End Binary64.

(** ** Values and exceptions *)

(** A computation that returns a value or raises a [TypeError]. *)
Inductive Js (A : Type) : Type :=
| Ok (a : A)
| Throw (e : string).
Arguments Ok {A} a.
Arguments Throw {A} e.

Definition bind {A B : Type} (m : Js A) (k : A -> Js B) : Js B :=
  match m with
  | Ok a => k a
  | Throw e => Throw e
  end.

Notation "x <- m ;; k" := (bind m (fun x => k))
  (at level 61, m at next level, right associativity).

(** [v.trim()] where [v] may be [undefined]. *)
Definition callTrim (v : option string) : Js string :=
  match v with
  | Some s => Ok (trim s)
  | None => Throw "TypeError: Cannot read properties of undefined (reading 'trim')"
  end.

(** The object literal [{ answer, confidence, sources }]. *)
Record AnswerRecord : Type := mkAnswer {
  answer : string;
  confidence : Q;
  sources : list string
}.

(** What [generateAnswerFromContent] returns: a bare string on the
    short-text path, an object on every other path. *)
Inductive Answer : Type :=
| Bare (s : string)
| Full (r : AnswerRecord).

(** The seven strings [getQuestionType] returns. *)
Inductive QuestionType : Type :=
| QWhat | QHow | QWhy | QWhen | QWhere | QWho | QGeneral.

Definition typeName (t : QuestionType) : string :=
  match t with
  | QWhat => "what" | QHow => "how" | QWhy => "why" | QWhen => "when"
  | QWhere => "where" | QWho => "who" | QGeneral => "general"
  end.

(** ** The answer generator of [src/server.js] *)

Definition getQuestionType (question : string) : QuestionType :=
  let lowerQ := toLowerCase question in
  if includes lowerQ "what" then QWhat
  else if includes lowerQ "how" then QHow
  else if includes lowerQ "why" then QWhy
  else if includes lowerQ "when" then QWhen
  else if includes lowerQ "where" then QWhere
  else if includes lowerQ "who" then QWho
  else QGeneral.

(** The object [keywords] of [findRelevantContext]; [None] is [undefined]. *)
Definition keywords (t : QuestionType) : option (list string) :=
  match t with
  | QWhat => Some ["is"; "are"; "means"; "definition"; "concept"]
  | QHow => Some ["process"; "method"; "steps"; "procedure"; "works"]
  | QWhy => Some ["because"; "reason"; "purpose"; "benefit"; "advantage"]
  | QWhen => Some ["date"; "time"; "period"; "schedule"; "timeline"]
  | QWhere => Some ["location"; "place"; "area"; "region"; "site"]
  | QWho | QGeneral => None
  end.

(** The [for] loop of [findRelevantContext]: [Some] is its early [return]. *)
Fixpoint firstKeywordSentence (relevantKeywords sentences : list string)
  : option string :=
  match sentences with
  | [] => None
  | sentence :: rest =>
      let lowerSentence := toLowerCase sentence in
      if existsb (fun keyword => includes lowerSentence keyword) relevantKeywords
      then Some (trim sentence)
      else firstKeywordSentence relevantKeywords rest
  end.

(** [keywords[questionType] || []] *)
Definition relevantKeywordsOf (questionType : QuestionType) : list string :=
  match keywords questionType with
  | Some l => l
  | None => []
  end.

Definition findRelevantContext (questionType : QuestionType)
    (sentences : list string) : Js (option string) :=
  let relevantKeywords := relevantKeywordsOf questionType in
  match firstKeywordSentence relevantKeywords sentences with
  | Some found => Ok (Some found)
  | None =>
      if 0 <? List.length sentences
      then first <- callTrim (nth_error sentences 0) ;; Ok (Some first)
      else Ok None
  end.

Definition fallbackGeneral : string :=
  "I've reviewed the document content, but couldn't find specific information addressing your question. The document might cover this topic in sections that weren't fully processed.".

(** The object [fallbackAnswers] of [generateFallbackAnswer]. *)
Definition fallbackAnswers (t : QuestionType) : option string :=
  match t with
  | QWhat => Some "The document discusses various topics, but I couldn't find specific information about your question. Could you rephrase or ask about a different aspect?"
  | QHow => Some "The methodology isn't clearly specified in the accessible content. You might want to check specific sections of the document for procedural details."
  | QWhy => Some "The reasoning behind this isn't explicitly stated in the extracted content. The document may contain this information in other sections."
  | QGeneral => Some fallbackGeneral
  | QWhen | QWhere | QWho => None
  end.

Definition generateFallbackAnswer (question : string) : string :=
  let questionType := getQuestionType question in
  match fallbackAnswers questionType with
  | Some s => if falsy (Some s) then fallbackGeneral else s
  | None => fallbackGeneral
  end.

(** The sentence splitter shared by both generators:
    [documentText.split(/[.!?]+/).filter(s => s.trim().length > 10)]. *)
Definition candidateSentences (documentText : string) : list string :=
  filter (fun s => 10 <? String.length (trim s)) (split isSentenceEnd documentText).

Definition generateContextualAnswer (question documentText : string) : Js Answer :=
  let sentences := candidateSentences documentText in
  let questionType := getQuestionType question in
  relevantContext <- findRelevantContext questionType sentences ;;
  if negb (falsy relevantContext) then
    Ok (Full {| answer := ("The document mentions: "
                           ++ match relevantContext with Some s => s | None => "" end)%string;
                confidence := 0.75%Q;
                sources := ["Relevant Document Section"] |})
  else
    Ok (Full {| answer := generateFallbackAnswer question;
                confidence := 0.6%Q;
                sources := ["General Document Analysis"] |}).

(** [questionWords]: the lower-cased question split at white space, words of
    more than three units. *)
Definition questionWordsOf (question : string) : list string :=
  filter (fun w => 3 <? String.length w) (split isWhiteSpace (toLowerCase question)).

(** [relevantSentences]: the candidates that contain some question word. *)
Definition relevantSentencesOf (questionWords sentences : list string) : list string :=
  filter (fun sentence =>
            let sentenceLower := toLowerCase sentence in
            existsb (fun word => includes sentenceLower word) questionWords)
         sentences.

(** [Math.min(0.7 + (n * 0.1), 0.95)], in the arithmetic of the language. *)
Definition relevantConfidence (n : nat) : Q :=
  Binary64.min
    (Binary64.add (Binary64.binary64 0.7)
       (Binary64.mul (Binary64.ofLength n) (Binary64.binary64 0.1)))
    (Binary64.binary64 0.95).

(** The same expression on the binary64 values of the kernel. *)
Definition relevantConfidenceFloat (n : nat) : float :=
  let x := (0x1.6666666666666p-1
            + of_uint63 (of_Z (Z.of_nat n)) * 0x1.999999999999ap-4)%float in
  if (x <? 0x1.e666666666666p-1)%float then x else 0x1.e666666666666p-1%float.

Definition generateAnswerFromContent (question : string)
    (documentText : option string) : Js Answer :=
  match documentText with
  | None => Ok (Bare (generateFallbackAnswer question))
  | Some text =>
      if falsy (Some text) || (String.length (trim text) <? 50) then
        Ok (Bare (generateFallbackAnswer question))
      else
        let sentences := candidateSentences text in
        let words := split isWhiteSpace (toLowerCase text) in
        let questionWords := questionWordsOf question in
        let relevantSentences := relevantSentencesOf questionWords sentences in
        if 0 <? List.length relevantSentences then
          let bestSentence := nth_error relevantSentences 0 in
          let supportingSentences :=
            filter (fun s => negb (match bestSentence with
                                   | Some b => String.eqb s b
                                   | None => false
                                   end))
                   (slice 1 3 relevantSentences) in
          best <- callTrim bestSentence ;;
          let answer0 := ("Based on the document: " ++ best)%string in
          let answer1 :=
            if 0 <? List.length supportingSentences
            then (answer0 ++ " Additionally, " ++ join " " supportingSentences)%string
            else answer0 in
          Ok (Full {| answer := answer1;
                      confidence := relevantConfidence (List.length relevantSentences);
                      sources := ["Document Content Analysis"] |})
        else if includes (toLowerCase question) "summary"
                || includes (toLowerCase question) "overview" then
          let firstParagraph := join ". " (slice 0 3 sentences) in
          Ok (Full {| answer := ("Document summary: " ++ firstParagraph)%string;
                      confidence := 0.8%Q;
                      sources := ["Document Introduction"] |})
        else generateContextualAnswer question text
  end.

(** The answer string carried by a result, whichever its shape. *)
Definition answerText (a : Answer) : string :=
  match a with
  | Bare s => s
  | Full r => answer r
  end.

(** ** Shapes of the results *)

(** The supporting sentences of the relevant branch, as the source computes
    them from [relevantSentences = best :: others]. *)
Definition supportingOf (best : string) (others : list string) : list string :=
  filter (fun s => negb (String.eqb s best)) (firstn 2 others).

Definition additionally (supporting : list string) : string :=
  if 0 <? List.length supporting
  then (" Additionally, " ++ join " " supporting)%string
  else EmptyString.

(** The two records [generateContextualAnswer] can return. *)
Definition mentionsRecord (context : string) : AnswerRecord :=
  {| answer := ("The document mentions: " ++ context)%string;
     confidence := 0.75%Q;
     sources := ["Relevant Document Section"] |}.

Definition fallbackRecord (question : string) : AnswerRecord :=
  {| answer := generateFallbackAnswer question;
     confidence := 0.6%Q;
     sources := ["General Document Analysis"] |}.

(** ** The specification's reading of question classification *)

(** The interrogatives, in the order [getQuestionType] tries them. *)
Definition interrogatives : list QuestionType :=
  [QWhat; QHow; QWhy; QWhen; QWhere; QWho].

Definition rank (t : QuestionType) : nat :=
  match t with
  | QWhat => 0 | QHow => 1 | QWhy => 2 | QWhen => 3
  | QWhere => 4 | QWho => 5 | QGeneral => 6
  end.

(** The first word of the lower-cased question. *)
Definition leadingWord (question : string) : string :=
  hd EmptyString
     (filter (fun w => negb (String.length w =? 0))
             (split isWhiteSpace (toLowerCase question))).

(** The specification's words, "classify question by leading interrogative
    word": the type whose name is the question's first word, [QGeneral] when
    the first word is no interrogative.  Compared with [getQuestionType]
    below. *)
Definition leadingWordType (question : string) : QuestionType :=
  match find (fun t => String.eqb (typeName t) (leadingWord question))
             interrogatives with
  | Some t => t
  | None => QGeneral
  end.

(** ** The upload, process and ask handlers of [src/server.js]

    The handlers are functions of what they receive from their
    collaborators: the outcome of a database lookup or save, the text the
    extraction libraries return, the identifier and the clock value a new
    record gets.  A rejected promise or a raised exception is a [Throw]; the
    random delay before the ask response is sent does not change what is
    sent and is left out. *)

(** [String.prototype.endsWith] *)
Definition endsWith (s suffix : string) : bool :=
  let n := String.length s in
  let m := String.length suffix in
  (m <=? n) && String.eqb (String.substring (n - m) m s) suffix.

(** The last code unit of a string. *)
Fixpoint lastUnit (s : string) : option ascii :=
  match s with
  | EmptyString => None
  | String c EmptyString => Some c
  | String _ s' => lastUnit s'
  end.

(** A non-negative integer inside a template literal. *)
Definition numberToString (n : nat) : string :=
  NilEmpty.string_of_uint (Nat.to_uint n).

Definition mimePdf : string := "application/pdf".
Definition mimeDoc : string := "application/msword".
Definition mimeDocx : string :=
  "application/vnd.openxmlformats-officedocument.wordprocessingml.document".
Definition mimeTxt : string := "text/plain".
Definition mimeOctet : string := "application/octet-stream".

Definition getMimeType (filename : string) : string :=
  if endsWith filename ".pdf" then mimePdf
  else if endsWith filename ".docx" then mimeDocx
  else if endsWith filename ".doc" then mimeDoc
  else if endsWith filename ".txt" then mimeTxt
  else mimeOctet.

(** The [fileFilter] of the multer configuration. *)
Definition allowedTypes : list string := [mimePdf; mimeDoc; mimeDocx; mimeTxt].

Definition fileFilter (mimetype : string) : Js bool :=
  if existsb (String.eqb mimetype) allowedTypes
  then Ok true
  else Throw "Invalid file type".

Section TextExtraction.

(** The library calls: [pdf(fs.readFileSync(filePath))] giving
    [data.text], [mammoth.extractRawText({ path })] giving [result.value],
    and [fs.readFileSync(filePath, 'utf8')]. *)
Variable pdfText : string -> Js string.
Variable docxText : string -> Js string.
Variable txtText : string -> Js string.

Definition extractTextFromPDF (filePath : string) : Js string :=
  match pdfText filePath with
  | Ok text => Ok text
  | Throw _ => Throw "Failed to extract text from PDF"
  end.

Definition extractTextFromDOCX (filePath : string) : Js string :=
  match docxText filePath with
  | Ok text => Ok text
  | Throw _ => Throw "Failed to extract text from DOCX"
  end.

Definition extractTextFromTXT (filePath : string) : Js string :=
  match txtText filePath with
  | Ok text => Ok text
  | Throw _ => Throw "Failed to extract text from TXT"
  end.

(** The [catch] of [extractTextFromFile] logs and rethrows. *)
Definition extractTextFromFile (filePath mimeType : string) : Js string :=
  if String.eqb mimeType mimePdf then extractTextFromPDF filePath
  else if String.eqb mimeType mimeDocx then extractTextFromDOCX filePath
  else if String.eqb mimeType mimeTxt then extractTextFromTXT filePath
  else Throw "Unsupported file type for text extraction".

End TextExtraction.

(** A record of the [Document] collection; a field the schema leaves
    without default is [None] until it is set. *)
Record Document : Type := mkDocument {
  _id : string;
  filename : string;
  originalName : string;
  filePath : string;
  fileSize : nat;
  uploadDate : nat;
  processed : bool;
  content : option string;
  extractedText : option string;
  wordCount : option nat
}.

(** A document of the [Query] collection.  [answer] and [confidence] are
    absent ([None]) when the handler passes [undefined]; [sources] is an
    array path of the schema, which the mongoose library (not part of the
    repository) fills with the empty array when it is given [undefined];
    [id] and [timestamp] are set when the document is constructed. *)
Module Query.
Record t : Type := mk {
  id : string;
  documentId : string;
  question : string;
  answer : option string;
  timestamp : nat;
  confidence : option Q;
  sources : list string
}.
End Query.

#[local] Unset Elimination Schemes.

(** A member of the parsed JSON body of a request; a member that is absent
    reads as [JUndefined]. *)
Inductive JsonValue : Type :=
| JUndefined
| JNull
| JBool (b : bool)
| JNumber (q : Q)
| JString (s : string)
| JArray (items : list JsonValue)
| JObject (members : list (string * JsonValue)).

#[local] Set Elimination Schemes.

(** [!!v] *)
Definition truthy (v : JsonValue) : bool :=
  match v with
  | JUndefined | JNull => false
  | JBool b => b
  | JNumber q => negb (Qeq_bool q 0)
  | JString s => negb (String.length s =? 0)
  | JArray _ | JObject _ => true
  end.

(** The JSON bodies the handlers send. *)
Inductive Body : Type :=
| ErrorBody (error : string)
| MessageBody (message : string)
| UploadedBody (message id name : string) (size uploadDate : nat)
| ProcessedBody (message id name : string) (isProcessed : bool)
    (words : nat) (preview : string)
| AnswerBody (question : string) (answer : option string) (queryId : string)
    (confidence : option Q) (timestamp : string)
    (sources : option (list string)) (analysis : string)
| DocumentBody (document : Document)
| QueriesBody (queries : list Query.t).

Record Response : Type := mkResponse {
  status : nat;
  body : Body
}.

(** What multer leaves in [req.file]. *)
Record MulterFile : Type := mkMulterFile {
  multerFilename : string;
  originalname : string;
  path : string;
  size : nat
}.

(** [POST /api/upload]; the second component is the document saved. *)
Definition uploadHandler (save : Document -> Js unit) (newId : string)
    (now : nat) (file : option MulterFile) : Response * option Document :=
  match file with
  | None => (mkResponse 400 (ErrorBody "No file uploaded"), None)
  | Some f =>
      let document :=
        {| _id := newId;
           filename := multerFilename f;
           originalName := originalname f;
           filePath := path f;
           fileSize := size f;
           uploadDate := now;
           processed := false;
           content := None;
           extractedText := None;
           wordCount := None |} in
      match save document with
      | Throw _ => (mkResponse 500 (ErrorBody "Failed to upload file"), None)
      | Ok _ =>
          (mkResponse 200
             (UploadedBody "File uploaded successfully" (_id document)
                (originalName document) (fileSize document) (uploadDate document)),
           Some document)
      end
  end.

Section ProcessHandler.

Variable pdfText docxText txtText : string -> Js string.
Variable findById : string -> Js (option Document).
Variable save : Document -> Js unit.

(** The inner [try] block: extraction followed by the check that the text
    is meaningful. *)
Definition extractMeaningfulText (document : Document) : Js string :=
  extractedText <- extractTextFromFile pdfText docxText txtText
                     (filePath document) (getMimeType (originalName document)) ;;
  if falsy (Some extractedText) || (String.length (trim extractedText) <? 10)
  then Throw "No meaningful text extracted from document"
  else Ok extractedText.

(** [POST /api/process/:id]; the second component is the document saved. *)
Definition processHandler (id : string) : Response * option Document :=
  match findById id with
  | Throw _ => (mkResponse 500 (ErrorBody "Failed to process document"), None)
  | Ok None => (mkResponse 404 (ErrorBody "Document not found"), None)
  | Ok (Some document) =>
      match extractMeaningfulText document with
      | Throw message =>
          (mkResponse 400
             (ErrorBody (" Failed to process document: " ++ message
                         ++ ". The document may be scanned, encrypted, or contain no extractable text.")%string),
           None)
      | Ok text =>
          let words := List.length (split isWhiteSpace text) in
          let document' :=
            {| _id := _id document;
               filename := filename document;
               originalName := originalName document;
               filePath := filePath document;
               fileSize := fileSize document;
               uploadDate := uploadDate document;
               processed := true;
               content := Some ("Document processed successfully. Extracted "
                                ++ numberToString words ++ " words of text.")%string;
               extractedText := Some text;
               wordCount := Some words |} in
          match save document' with
          | Throw _ => (mkResponse 500 (ErrorBody "Failed to process document"), None)
          | Ok _ =>
              (mkResponse 200
                 (ProcessedBody "Document processed successfully with text extraction"
                    (_id document') (originalName document') true words
                    (String.substring 0 200 text ++ "...")%string),
               Some document')
          end
      end
  end.

End ProcessHandler.

(** The answer of the process handler to a file type it cannot extract. *)
Definition unsupportedResponse : Response :=
  mkResponse 400
    (ErrorBody " Failed to process document: Unsupported file type for text extraction. The document may be scanned, encrypted, or contain no extractable text.").

(** [result.answer], [result.confidence] and [result.sources]: a property
    read on a string primitive gives [undefined]. *)
Definition resultAnswer (result : Answer) : option string :=
  match result with
  | Bare _ => None
  | Full r => Some (answer r)
  end.

Definition resultConfidence (result : Answer) : option Q :=
  match result with
  | Bare _ => None
  | Full r => Some (confidence r)
  end.

Definition resultSources (result : Answer) : option (list string) :=
  match result with
  | Bare _ => None
  | Full r => Some (sources r)
  end.

(** [new Query({ documentId, question, answer, confidence, sources })] with
    the three properties read off the generator's result. *)
Definition newQuery (newQueryId : string) (createdAt : nat)
    (documentId question : string) (result : Answer) : Query.t :=
  {| Query.id := newQueryId;
     Query.documentId := documentId;
     Query.question := question;
     Query.answer := resultAnswer result;
     Query.timestamp := createdAt;
     Query.confidence := resultConfidence result;
     Query.sources := match resultSources result with
                      | Some tags => tags
                      | None => []
                      end |}.

Section AskHandler.

Variable findById : JsonValue -> Js (option Document).
Variable saveQuery : Query.t -> Js unit.
Variable newQueryId : string.
Variable createdAt : nat.
Variable now : string.

(** [POST /api/ask]; the second component is the query saved.  Every path
    of the generator starts by calling [question.toLowerCase()], which a
    value other than a string does not have: the [TypeError] is caught by
    the handler like any other failure. *)
Definition askHandler (documentId question : JsonValue)
  : Response * option Query.t :=
  if negb (truthy documentId) || negb (truthy question) then
    (mkResponse 400 (ErrorBody "Document ID and question are required"), None)
  else
    match findById documentId with
    | Throw _ => (mkResponse 500 (ErrorBody "Failed to process question"), None)
    | Ok None => (mkResponse 404 (ErrorBody "Document not found"), None)
    | Ok (Some document) =>
        if negb (processed document) then
          (mkResponse 400 (ErrorBody "Document not processed yet"), None)
        else if falsy (extractedText document) then
          (mkResponse 400 (ErrorBody "No text content available for analysis"), None)
        else
          match question with
          | JString question' =>
              match generateAnswerFromContent question' (extractedText document) with
              | Throw _ =>
                  (mkResponse 500 (ErrorBody "Failed to process question"), None)
              | Ok result =>
                  let query :=
                    newQuery newQueryId createdAt (_id document) question' result in
                  match saveQuery query with
                  | Throw _ =>
                      (mkResponse 500 (ErrorBody "Failed to process question"), None)
                  | Ok _ =>
                      (mkResponse 200
                         (AnswerBody question' (resultAnswer result) newQueryId
                            (resultConfidence result) now (resultSources result)
                            "Real document content analysis"),
                       Some query)
                  end
              end
          | _ => (mkResponse 500 (ErrorBody "Failed to process question"), None)
          end
    end.

End AskHandler.

(** ** The history route of [src/server.js] and the document router

    Express binds the named segment of a route pattern to the property of
    that name in [req.params]; a property that is absent reads as
    [undefined]. *)

Definition lookupParam (key : string) (params : list (string * string))
  : option string :=
  match find (fun kv => String.eqb (fst kv) key) params with
  | Some kv => Some (snd kv)
  | None => None
  end.

(** [req.params] for a request matched by ['/api/history/:documentId']. *)
Definition historyParams (documentId : string) : list (string * string) :=
  [("documentId", documentId)].

(** [req.params] for a request matched by ['/documents/:id/queries']. *)
Definition documentParams (id : string) : list (string * string) :=
  [("id", id)].

Section QueryRoutes.

(** [Query.find({ documentId: v })] with what the handler chains on it
    (a sort, and in the history route a limit of 50), as a function of
    the filter value [v]. *)
Variable findQueries : option string -> Js (list Query.t).

(** [GET /api/history/:documentId] of [src/server.js]. *)
Definition historyHandler (params : list (string * string)) : Response :=
  match findQueries (lookupParam "id" params) with
  | Ok queries => mkResponse 200 (QueriesBody queries)
  | Throw _ => mkResponse 500 (ErrorBody "Failed to fetch history")
  end.

(** [GET /documents/:id/queries] of the router. *)
Definition documentQueriesHandler (params : list (string * string)) : Response :=
  match findQueries (lookupParam "id" params) with
  | Ok queries => mkResponse 200 (QueriesBody queries)
  | Throw message => mkResponse 500 (ErrorBody message)
  end.

End QueryRoutes.

(** Modelled from the spec: the persistence layer (the mongoose library and
    the database behind it) is not under src/.  The two collections are
    lists; a document is identified by [_id], and deleting a document is
    meant to remove the queries that refer to it. *)
Record Store : Type := mkStore {
  documents : list Document;
  queries : list Query.t
}.

Fixpoint removeFirst (id : string) (docs : list Document) : list Document :=
  match docs with
  | [] => []
  | d :: rest =>
      if String.eqb (_id d) id then rest else d :: removeFirst id rest
  end.

(** The stored document with a given id, if there is one. *)
Definition findDocument (id : string) (st : Store) : option Document :=
  find (fun d => String.eqb (_id d) id) (documents st).

(** The database calls the router makes. *)
Inductive DbCall : Type :=
| CallFindById
| CallFindByIdAndDelete
| CallDeleteMany.

Section Router.

(** Whether a call is rejected during the request at hand, and with what
    error message; a rejected call leaves the collections as they are. *)
Variable rejects : DbCall -> option string.

(** Modelled from the spec: [Document.findById(id)] of mongoose. *)
Definition findDocumentById (id : string) (st : Store) : Js (option Document) :=
  match rejects CallFindById with
  | Some message => Throw message
  | None => Ok (findDocument id st)
  end.

(** Modelled from the spec: [Document.findByIdAndDelete(id)] of mongoose:
    the document found, and the store without it. *)
Definition findDocumentByIdAndDelete (id : string) (st : Store)
  : Js (option Document) * Store :=
  match rejects CallFindByIdAndDelete with
  | Some message => (Throw message, st)
  | None =>
      match findDocument id st with
      | Some d => (Ok (Some d), mkStore (removeFirst id (documents st)) (queries st))
      | None => (Ok None, st)
      end
  end.

(** Modelled from the spec: [Query.deleteMany({ documentId })] of
    mongoose. *)
Definition deleteManyQueries (documentId : string) (st : Store) : Js unit * Store :=
  match rejects CallDeleteMany with
  | Some message => (Throw message, st)
  | None =>
      (Ok tt,
       mkStore (documents st)
               (filter (fun q => negb (String.eqb (Query.documentId q) documentId))
                       (queries st)))
  end.

(** [GET /documents/:id] of the router. *)
Definition getDocumentHandler (id : string) (st : Store) : Response :=
  match findDocumentById id st with
  | Throw message => mkResponse 500 (ErrorBody message)
  | Ok None => mkResponse 404 (ErrorBody "Document not found")
  | Ok (Some document) => mkResponse 200 (DocumentBody document)
  end.

(** [DELETE /documents/:id] of the router; the second component is the
    store the request leaves. *)
Definition deleteDocumentHandler (id : string) (st : Store) : Response * Store :=
  match findDocumentByIdAndDelete id st with
  | (Throw message, st1) => (mkResponse 500 (ErrorBody message), st1)
  | (Ok None, st1) => (mkResponse 404 (ErrorBody "Document not found"), st1)
  | (Ok (Some _), st1) =>
      match deleteManyQueries id st1 with
      | (Throw message, st2) => (mkResponse 500 (ErrorBody message), st2)
      | (Ok _, st2) =>
          (mkResponse 200 (MessageBody "Document deleted successfully"), st2)
      end
  end.

End Router.

(** A database on which no call is rejected. *)
Definition healthy (call : DbCall) : option string := None.

(** ** The file list of [src/script.js] *)

Module Client.

(** A JavaScript value that is a number or a string, and [===] on them. *)
Inductive JsValue : Type :=
| VNumber (n : nat)
| VString (s : string).

Definition strictEquals (a b : JsValue) : bool :=
  match a, b with
  | VNumber x, VNumber y => x =? y
  | VString x, VString y => String.eqb x y
  | _, _ => false
  end.

(** The browser's [File]: [name], [size] in bytes, [type]. *)
Module BrowserFile.
Record t : Type := mk {
  name : string;
  size : nat;
  type : string
}.
End BrowserFile.

(** An entry of [uploadedFiles]; [size] holds the formatted size. *)
Record UploadedFile : Type := mkUploadedFile {
  id : string;
  file : option BrowserFile.t;
  name : string;
  size : string;
  type : string;
  uploadDate : nat
}.

(** The module-level state the file functions touch, the notifications
    shown so far, and the number of identifiers drawn. *)
Record State : Type := mkState {
  uploadedFiles : list UploadedFile;
  notifications : list (string * string);
  tick : nat
}.

Definition supportedTypes : list string :=
  ["application/pdf";
   "application/msword";
   "application/vnd.openxmlformats-officedocument.wordprocessingml.document";
   "text/plain"].

Definition isFileTypeSupported (f : BrowserFile.t) : bool :=
  existsb (String.eqb (BrowserFile.type f)) supportedTypes.

Definition getFileIcon (fileType : string) : string :=
  if String.eqb fileType "application/pdf" then "pdf"
  else if includes fileType "word" then "word"
  else if String.eqb fileType "text/plain" then "alt"
  else "file".

Definition showNotification (message kind : string) (st : State) : State :=
  mkState (uploadedFiles st) (notifications st ++ [(message, kind)]) (tick st).

Section FileList.

(** [formatFileSize], and the values [generateId()] and [new Date()] give
    at the n-th draw. *)
Variable formatFileSize : nat -> string.
Variable generateId : nat -> string.
Variable dateAt : nat -> nat.

(** The body of the [for] loop of [processFiles], then the loop. *)
Definition processOne (f : BrowserFile.t) (st : State) : State :=
  if negb (isFileTypeSupported f) then
    showNotification ("File type not supported: " ++ BrowserFile.name f) "error" st
  else if existsb (fun u => String.eqb (name u) (BrowserFile.name f)
                            && strictEquals (VString (size u))
                                            (VNumber (BrowserFile.size f)))
                  (uploadedFiles st) then
    showNotification ("File already uploaded: " ++ BrowserFile.name f) "warning" st
  else
    let entry :=
      {| id := generateId (tick st);
         file := Some f;
         name := BrowserFile.name f;
         size := formatFileSize (BrowserFile.size f);
         type := BrowserFile.type f;
         uploadDate := dateAt (tick st) |} in
    showNotification ("File uploaded: " ++ BrowserFile.name f) "success"
      (mkState (uploadedFiles st ++ [entry]) (notifications st) (S (tick st))).

Fixpoint processFiles (files : list BrowserFile.t) (st : State) : State :=
  match files with
  | [] => st
  | f :: rest => processFiles rest (processOne f st)
  end.

End FileList.

Definition removeFile (fileId : string) (st : State) : State :=
  showNotification "File removed" "info"
    (mkState (filter (fun f => negb (String.eqb (id f) fileId)) (uploadedFiles st))
             (notifications st) (tick st)).

End Client.

(** A stored document for the examples. *)
Definition sampleDocument (originalName : string) (processed : bool)
    (extractedText : option string) : Document :=
  {| _id := "65f0c0ffee";
     filename := "1700000000000-42";
     originalName := originalName;
     filePath := "uploads/1700000000000-42";
     fileSize := 2048;
     uploadDate := 1700;
     processed := processed;
     content := None;
     extractedText := extractedText;
     wordCount := None |}.

(** The sample document as the process handler saves it with a text. *)
Definition sampleProcessed (text : string) : Document :=
  {| _id := "65f0c0ffee";
     filename := "1700000000000-42";
     originalName := "notes.txt";
     filePath := "uploads/1700000000000-42";
     fileSize := 2048;
     uploadDate := 1700;
     processed := true;
     content := Some ("Document processed successfully. Extracted "
                      ++ numberToString (List.length (split isWhiteSpace text))
                      ++ " words of text.")%string;
     extractedText := Some text;
     wordCount := Some (List.length (split isWhiteSpace text)) |}.

(** ** Facts about the string primitives *)

Section StringFacts.

(** The primitives on inputs whose JavaScript results are known. *)
Example split_leading_and_trailing_runs :
  split isSentenceEnd "..a.!b?" = [""; "a"; "b"; ""].
Proof. reflexivity. Qed.

Example split_empty_string : split isWhiteSpace "" = [""].
Proof. reflexivity. Qed.

Example trim_both_ends : trim "  a  b   " = "a  b".
Proof. reflexivity. Qed.

Example toLowerCase_keeps_punctuation :
  toLowerCase "What IS this?" = "what is this?".
Proof. reflexivity. Qed.

Lemma prefix_app (w s : string) :
  String.prefix w s = true <-> exists b, s = (w ++ b)%string.
Proof.
  revert s; induction w as [|c w IH]; intros s.
  - split; [intros _; now exists s | intros _; destruct s; reflexivity].
  - destruct s as [|c' s]; simpl.
    + split; [discriminate | intros [b Hb]; discriminate].
    + destruct (ascii_dec c c') as [->|Hne].
      * rewrite IH. split; intros [b Hb]; exists b; [now rewrite Hb | now injection Hb].
      * split; [discriminate | intros [b Hb]; injection Hb; intros _ E; now elim Hne].
Qed.

(** [includes s w] holds exactly when [w] occurs inside [s]. *)
Lemma includes_app (s w : string) :
  includes s w = true <-> exists a b, s = (a ++ w ++ b)%string.
Proof.
  induction s as [|c s IH].
  - cbn [includes]. rewrite orb_false_r, prefix_app. split.
    + intros [b Hb]. now exists EmptyString, b.
    + intros [a [b Hab]]. destruct a; [now exists b | discriminate].
  - cbn [includes]. rewrite orb_true_iff, IH, prefix_app. split.
    + intros [[b Hb] | [a [b Hab]]].
      * now exists EmptyString, b.
      * exists (String c a), b. now rewrite Hab.
    + intros [a [b Hab]]. destruct a as [|c' a].
      * left. now exists b.
      * right. exists a, b. now injection Hab.
Qed.

Lemma toLowerCase_app (a b : string) :
  toLowerCase (a ++ b) = (toLowerCase a ++ toLowerCase b)%string.
Proof. induction a as [|c a IH]; simpl; [reflexivity | now rewrite IH]. Qed.

(** A needle that lower-casing leaves alone is still found after the
    haystack is lower-cased. *)
Lemma includes_toLowerCase (s w : string) :
  toLowerCase w = w -> includes s w = true -> includes (toLowerCase s) w = true.
Proof.
  intros Hw. rewrite !includes_app. intros [a [b ->]].
  exists (toLowerCase a), (toLowerCase b).
  now rewrite !toLowerCase_app, Hw.
Qed.

Lemma trim_empty : trim EmptyString = EmptyString.
Proof. reflexivity. Qed.

Lemma falsy_long_trim (text : string) (n : nat) :
  n < String.length (trim text) -> falsy (Some text) = false.
Proof.
  destruct text; [rewrite trim_empty; simpl; lia | reflexivity].
Qed.

End StringFacts.

(** ** Facts about the generator's parts *)

Lemma candidate_trim_length (text s : string) :
  In s (candidateSentences text) -> 10 < String.length (trim s).
Proof.
  unfold candidateSentences. rewrite filter_In. intros [_ H].
  now apply Nat.ltb_lt in H.
Qed.

Lemma generateFallbackAnswer_cases (question : string) :
  generateFallbackAnswer question =
  match fallbackAnswers (getQuestionType question) with
  | Some s => s
  | None => fallbackGeneral
  end.
Proof.
  unfold generateFallbackAnswer.
  destruct (getQuestionType question); reflexivity.
Qed.

Lemma generateFallbackAnswer_nonempty (question : string) :
  generateFallbackAnswer question <> EmptyString.
Proof.
  rewrite generateFallbackAnswer_cases.
  destruct (getQuestionType question); discriminate.
Qed.

(** Guarded by a positive length, reading element 0 and trimming it cannot
    raise. *)
Lemma callTrim_head (l : list string) :
  (0 <? List.length l) = true ->
  exists first rest, l = first :: rest /\ callTrim (nth_error l 0) = Ok (trim first).
Proof.
  destruct l as [|first rest]; simpl; [discriminate | intros _].
  now exists first, rest.
Qed.

Lemma findRelevantContext_total (t : QuestionType) (sentences : list string) :
  exists c, findRelevantContext t sentences = Ok c.
Proof.
  unfold findRelevantContext.
  destruct (firstKeywordSentence _ sentences) as [found|]; [now eexists|].
  destruct (0 <? List.length sentences) eqn:E; [|now eexists].
  destruct (callTrim_head _ E) as [first [rest [_ ->]]]. now eexists.
Qed.

Lemma generateContextualAnswer_total (question text : string) :
  exists r, generateContextualAnswer question text = Ok (Full r)
            /\ answer r <> EmptyString.
Proof.
  unfold generateContextualAnswer.
  destruct (findRelevantContext_total (getQuestionType question)
              (candidateSentences text)) as [c ->]. simpl.
  destruct (falsy c); simpl; eexists; split; try reflexivity; simpl.
  - apply generateFallbackAnswer_nonempty.
  - discriminate.
Qed.

Lemma string_app_assoc (a b c : string) :
  ((a ++ b) ++ c = a ++ b ++ c)%string.
Proof. induction a as [|x a IH]; simpl; [reflexivity | now rewrite IH]. Qed.

(** The first element a filter keeps, and where it sits in the list. *)
Lemma filter_first {A : Type} (f : A -> bool) (l : list A) (s : A) :
  In s l -> f s = true ->
  exists best before after,
    l = before ++ best :: after /\
    f best = true /\
    (forall x, In x before -> f x = false) /\
    (best = s \/ In s after) /\
    filter f l = best :: filter f after.
Proof.
  induction l as [|x l IH]; intros Hin Hs; [contradiction|].
  destruct (f x) eqn:Hx.
  - exists x, [], l. simpl. rewrite Hx.
    split; [reflexivity|]. split; [reflexivity|]. split; [intros y []|].
    split; [|reflexivity].
    destruct Hin as [->|Hin]; [now left | now right].
  - destruct Hin as [->|Hin]; [congruence|].
    destruct (IH Hin Hs) as (best & before & after & -> & Hb & Hbef & Hor & Hf).
    exists best, (x :: before), after. simpl. rewrite Hx.
    split; [reflexivity|]. split; [assumption|]. split; [|now split].
    intros y [<-|Hy]; [assumption | now apply Hbef].
Qed.

Lemma string_app_empty (a : string) : (a ++ "")%string = a.
Proof. induction a as [|x a IH]; simpl; [reflexivity | now rewrite IH]. Qed.

(** The path taken when the text is usable and some sentence is relevant. *)
Lemma generate_relevant (question text best : string) (others : list string) :
  50 <= String.length (trim text) ->
  relevantSentencesOf (questionWordsOf question) (candidateSentences text)
    = best :: others ->
  generateAnswerFromContent question (Some text) =
  Ok (Full {| answer := ("Based on the document: " ++ trim best
                         ++ additionally (supportingOf best others))%string;
              confidence := relevantConfidence (S (List.length others));
              sources := ["Document Content Analysis"] |}).
Proof.
  intros Hlen Hrel. unfold generateAnswerFromContent.
  rewrite (falsy_long_trim text 49) by lia.
  replace (String.length (trim text) <? 50) with false
    by (symmetry; apply Nat.ltb_ge; lia).
  cbn [orb]. cbv zeta. rewrite Hrel.
  change (nth_error (best :: others) 0) with (Some best).
  change (slice 1 3 (best :: others)) with (firstn 2 others).
  change (0 <? List.length (best :: others)) with true.
  cbn [callTrim bind List.length]. cbv beta.
  fold (supportingOf best others). unfold additionally.
  destruct (0 <? List.length (supportingOf best others)).
  - now rewrite string_app_assoc.
  - now rewrite string_app_empty.
Qed.

(** The paths taken when the text is usable and no sentence is relevant. *)
Lemma generate_irrelevant (question text : string) :
  50 <= String.length (trim text) ->
  relevantSentencesOf (questionWordsOf question) (candidateSentences text) = [] ->
  generateAnswerFromContent question (Some text) =
  if includes (toLowerCase question) "summary"
     || includes (toLowerCase question) "overview"
  then Ok (Full {| answer := ("Document summary: "
                              ++ join ". " (firstn 3 (candidateSentences text)))%string;
                   confidence := 0.8%Q;
                   sources := ["Document Introduction"] |})
  else generateContextualAnswer question text.
Proof.
  intros Hlen Hrel. unfold generateAnswerFromContent.
  rewrite (falsy_long_trim text 49) by lia.
  replace (String.length (trim text) <? 50) with false
    by (symmetry; apply Nat.ltb_ge; lia).
  cbn [orb]. cbv zeta. rewrite Hrel. reflexivity.
Qed.

Lemma generate_unusable (question : string) (documentText : option string) :
  documentText = None \/
  (exists text, documentText = Some text /\ String.length (trim text) < 50) ->
  generateAnswerFromContent question documentText =
  Ok (Bare (generateFallbackAnswer question)).
Proof.
  intros [->|[text [-> Hlen]]]; [reflexivity|].
  unfold generateAnswerFromContent.
  apply Nat.ltb_lt in Hlen. rewrite Hlen, orb_true_r. reflexivity.
Qed.

(** ** The specification's properties *)

(** *** Relevant sentences *)

(** C1, as stated, fails in two ways.  On a short document the question
    word "elephant" occurs in the only sentence of a 25-unit text, yet the
    short-text guard returns the bare general fallback.  On a long document
    the question word "whale" occurs only in the piece "Big whale", which
    has no more than 10 units and is no candidate; the answer is built from
    another sentence.  Neither answer starts with "Based on the document: ". *)
Lemma relevant_word_without_based_on_answer :
  (In "elephant" (split isWhiteSpace (toLowerCase "elephant")) /\
   4 < String.length "elephant" /\
   In "The elephant walked home" (split isSentenceEnd "The elephant walked home.") /\
   includes (toLowerCase "The elephant walked home") "elephant" = true /\
   generateAnswerFromContent "elephant" (Some "The elephant walked home.")
     = Ok (Bare fallbackGeneral) /\
   String.prefix "Based on the document: " fallbackGeneral = false) /\
  (In "whale" (split isWhiteSpace (toLowerCase "whale")) /\
   4 < String.length "whale" /\
   In "Big whale"
      (split isSentenceEnd
         "Big whale. It was a sunny day outside and the cat sat on the mat.") /\
   includes (toLowerCase "Big whale") "whale" = true /\
   generateAnswerFromContent "whale"
     (Some "Big whale. It was a sunny day outside and the cat sat on the mat.")
     = Ok (Full (mentionsRecord
                   "It was a sunny day outside and the cat sat on the mat"))).
Proof.
  split.
  - split; [now left|]. split; [simpl; lia|]. split; [now left|].
    repeat split; vm_compute; reflexivity.
  - split; [now left|]. split; [simpl; lia|]. split; [now left|].
    repeat split; vm_compute; reflexivity.
Qed.

(** C1 (amended): when the document text has at least 50 units after
    trimming, and a word of the lower-cased question longer than 4 units
    occurs in the lower-cased form of a candidate sentence (a piece of the
    text longer than 10 units after trimming), the result is a record whose
    answer is "Based on the document: " followed by the trimmed first
    relevant candidate: a relevant candidate with no relevant candidate
    before it, which is that sentence or comes before it.  The source tag
    is "Document Content Analysis". *)
Theorem relevant_sentence_heads_answer (question text w s : string) :
  50 <= String.length (trim text) ->
  In w (split isWhiteSpace (toLowerCase question)) ->
  4 < String.length w ->
  In s (candidateSentences text) ->
  includes (toLowerCase s) w = true ->
  exists best before after r rest,
    candidateSentences text = before ++ best :: after /\
    (best = s \/ In s after) /\
    (exists w', In w' (questionWordsOf question)
                /\ includes (toLowerCase best) w' = true) /\
    (forall earlier w', In earlier before -> In w' (questionWordsOf question) ->
                        includes (toLowerCase earlier) w' = false) /\
    generateAnswerFromContent question (Some text) = Ok (Full r) /\
    answer r = ("Based on the document: " ++ trim best ++ rest)%string /\
    sources r = ["Document Content Analysis"].
Proof.
  intros Hlen Hw Hwl Hs Hinc.
  assert (Hsig : In w (questionWordsOf question)).
  { unfold questionWordsOf. apply filter_In. split; [assumption|].
    apply Nat.ltb_lt. lia. }
  set (rel := fun sentence : string =>
                existsb (fun word => includes (toLowerCase sentence) word)
                        (questionWordsOf question)).
  assert (Hrel : rel s = true).
  { unfold rel. apply existsb_exists. now exists w. }
  destruct (filter_first rel (candidateSentences text) s Hs Hrel)
    as (best & before & after & Hsplit & Hb & Hbef & Hor & Hf).
  exists best, before, after.
  pose proof (generate_relevant question text best (filter rel after) Hlen Hf)
    as Hgen.
  eexists. eexists.
  split; [exact Hsplit|]. split; [exact Hor|].
  split; [now apply existsb_exists in Hb|].
  split.
  { intros earlier w' He Hw'. specialize (Hbef earlier He). unfold rel in Hbef.
    destruct (includes (toLowerCase earlier) w') eqn:Hi; [|reflexivity].
    assert (existsb (fun word => includes (toLowerCase earlier) word)
                    (questionWordsOf question) = true)
      by (apply existsb_exists; now exists w').
    congruence. }
  split; [exact Hgen|]. split; reflexivity.
Qed.

Lemma relevant_sentence_heads_answer_witness :
  exists best before after r rest,
    candidateSentences
      "It was a sunny day outside. The elephant walked home. The elephant slept."
      = before ++ best :: after /\
    (best = " The elephant slept" \/ In " The elephant slept" after) /\
    (exists w', In w' (questionWordsOf "Where is the elephant")
                /\ includes (toLowerCase best) w' = true) /\
    (forall earlier w', In earlier before ->
                        In w' (questionWordsOf "Where is the elephant") ->
                        includes (toLowerCase earlier) w' = false) /\
    generateAnswerFromContent "Where is the elephant"
      (Some "It was a sunny day outside. The elephant walked home. The elephant slept.")
      = Ok (Full r) /\
    answer r = ("Based on the document: " ++ trim best ++ rest)%string /\
    sources r = ["Document Content Analysis"].
Proof.
  apply (relevant_sentence_heads_answer "Where is the elephant"
           "It was a sunny day outside. The elephant walked home. The elephant slept."
           "elephant" " The elephant slept").
  - vm_compute. lia.
  - vm_compute. tauto.
  - vm_compute. lia.
  - vm_compute. tauto.
  - vm_compute. reflexivity.
Defined.

(** *** The worked example *)

(** C3, as stated, fails: the answer to the worked example does not start
    with "Based on the document: The cat sat on the mat". *)
Lemma cat_example_not_based_on_document :
  exists r,
    generateAnswerFromContent "What did the cat sit on?"
      (Some "The cat sat on the mat. It was a sunny day outside.") = Ok (Full r) /\
    String.prefix "Based on the document: The cat sat on the mat" (answer r) = false.
Proof. eexists. split; vm_compute; reflexivity. Qed.

(** C3 (amended): for the text "The cat sat on the mat. It was a sunny day
    outside." and the question "What did the cat sit on?" the only
    significant word is "what" ("sit" and "on?" have at most three units),
    no sentence contains it, and the result is the contextual answer
    "The document mentions: The cat sat on the mat" with confidence 0.75 and
    source "Relevant Document Section". *)
Theorem cat_example_contextual_answer :
  questionWordsOf "What did the cat sit on?" = ["what"] /\
  relevantSentencesOf (questionWordsOf "What did the cat sit on?")
    (candidateSentences "The cat sat on the mat. It was a sunny day outside.") = [] /\
  generateAnswerFromContent "What did the cat sit on?"
    (Some "The cat sat on the mat. It was a sunny day outside.")
  = Ok (Full {| answer := "The document mentions: The cat sat on the mat";
                confidence := 0.75%Q;
                sources := ["Relevant Document Section"] |}).
Proof. repeat split; vm_compute; reflexivity. Qed.

(** *** Short or missing text *)

(** C4: for every question, a document text that is null, empty, or shorter
    than 50 units after trimming yields the bare fallback string of the
    question's type: the template stored for the type, or the general one
    for a type without a template. *)
Theorem unusable_text_bare_fallback (question : string)
    (documentText : option string) :
  documentText = None \/ documentText = Some EmptyString \/
  (exists text, documentText = Some text /\ String.length (trim text) < 50) ->
  generateAnswerFromContent question documentText
    = Ok (Bare (generateFallbackAnswer question)) /\
  generateFallbackAnswer question
    = match fallbackAnswers (getQuestionType question) with
      | Some template => template
      | None => fallbackGeneral
      end.
Proof.
  intros H. split; [|apply generateFallbackAnswer_cases].
  apply generate_unusable.
  destruct H as [H|[H|H]]; [now left | right | now right].
  exists EmptyString. split; [assumption | vm_compute; lia].
Qed.

Lemma unusable_text_bare_fallback_witness :
  generateAnswerFromContent "Why is the sky blue?" (Some "   The sky.   ")
    = Ok (Bare (generateFallbackAnswer "Why is the sky blue?")) /\
  generateFallbackAnswer "Why is the sky blue?"
    = match fallbackAnswers (getQuestionType "Why is the sky blue?") with
      | Some template => template
      | None => fallbackGeneral
      end.
Proof.
  apply (unusable_text_bare_fallback "Why is the sky blue?" (Some "   The sky.   ")).
  right. right. exists "   The sky.   ". split; [reflexivity | vm_compute; lia].
Defined.

(** *** Summary questions *)

(** C5, as stated, fails when the text is too short: the question asks for
    a summary, no relevant sentence is found, and the result is the bare
    general fallback. *)
Lemma summary_question_short_text_fallback :
  includes "Give me a summary" "summary" = true /\
  relevantSentencesOf (questionWordsOf "Give me a summary")
    (candidateSentences "Short note about cats.") = [] /\
  generateAnswerFromContent "Give me a summary" (Some "Short note about cats.")
    = Ok (Bare fallbackGeneral).
Proof. repeat split; vm_compute; reflexivity. Qed.

(** C5 (amended): when the document text has at least 50 units after
    trimming, the question contains "summary" or "overview" (as written or
    after lower-casing) and no candidate sentence is relevant, the result is
    the record with answer "Document summary: " followed by the first three
    candidate sentences joined by ". ", confidence 0.8 and source
    "Document Introduction"; it is not a fallback answer. *)
Theorem summary_branch (question text keyword : string) :
  50 <= String.length (trim text) ->
  keyword = "summary" \/ keyword = "overview" ->
  includes question keyword = true
  \/ includes (toLowerCase question) keyword = true ->
  relevantSentencesOf (questionWordsOf question) (candidateSentences text) = [] ->
  generateAnswerFromContent question (Some text)
  = Ok (Full {| answer := ("Document summary: "
                           ++ join ". " (firstn 3 (candidateSentences text)))%string;
                confidence := 0.8%Q;
                sources := ["Document Introduction"] |}) /\
  generateAnswerFromContent question (Some text)
  <> Ok (Bare (generateFallbackAnswer question)).
Proof.
  intros Hlen Hk Hinc Hrel.
  assert (Hlow : includes (toLowerCase question) keyword = true).
  { destruct Hinc as [Hinc|Hinc]; [|assumption].
    apply includes_toLowerCase; [|assumption].
    destruct Hk as [->| ->]; reflexivity. }
  rewrite (generate_irrelevant question text Hlen Hrel).
  replace (includes (toLowerCase question) "summary"
           || includes (toLowerCase question) "overview") with true.
  - split; [reflexivity | discriminate].
  - symmetry. apply orb_true_iff.
    destruct Hk as [->| ->]; [now left | now right].
Qed.

Lemma summary_branch_witness :
  generateAnswerFromContent "Give me a SUMMARY"
    (Some "Alpha beta gamma delta. Epsilon zeta eta theta! Iota kappa lambda mu? Nu xi omicron pi rho.")
  = Ok (Full {| answer := ("Document summary: "
                           ++ join ". " (firstn 3 (candidateSentences
        "Alpha beta gamma delta. Epsilon zeta eta theta! Iota kappa lambda mu? Nu xi omicron pi rho.")))%string;
                confidence := 0.8%Q;
                sources := ["Document Introduction"] |}) /\
  generateAnswerFromContent "Give me a SUMMARY"
    (Some "Alpha beta gamma delta. Epsilon zeta eta theta! Iota kappa lambda mu? Nu xi omicron pi rho.")
  <> Ok (Bare (generateFallbackAnswer "Give me a SUMMARY")).
Proof.
  apply (summary_branch "Give me a SUMMARY"
    "Alpha beta gamma delta. Epsilon zeta eta theta! Iota kappa lambda mu? Nu xi omicron pi rho."
    "summary").
  - vm_compute. lia.
  - left. reflexivity.
  - right. reflexivity.
  - reflexivity.
Defined.

(** *** Confidence of the relevant branch *)

Module Binary64Facts.
Import Binary64.
Local Open Scope Q_scope.

Lemma pow2_pos (e : Z) : 0 < pow2 e.
Proof. apply Qpower_0_lt. reflexivity. Qed.

Lemma pow2_plus (a b : Z) : pow2 (a + b) == pow2 a * pow2 b.
Proof. apply Qpower_plus. discriminate. Qed.

Lemma pow2_le (a b : Z) : (a <= b)%Z -> pow2 a <= pow2 b.
Proof. intros H. apply Qpower_le_compat_l; [exact H | discriminate]. Qed.

Lemma pow2_inject (n : Z) : (0 <= n)%Z -> inject_Z (2 ^ n) == pow2 n.
Proof. intros H. now rewrite Zpower_Qpower. Qed.

(** [floorLog2 q] is the exponent of the binade of a positive [q]. *)
Lemma floorLog2_spec (q : Q) :
  0 < q -> pow2 (floorLog2 q) <= q /\ q < pow2 (floorLog2 q + 1).
Proof.
  intros Hq. destruct q as [p d].
  assert (Hp : (0 < p)%Z) by (unfold Qlt in Hq; simpl in Hq; lia).
  unfold floorLog2. cbn [Qnum Qden].
  set (a := Z.log2 p). set (b := Z.log2 (Zpos d)).
  destruct (Z.log2_spec p Hp) as [Ha1 Ha2]. fold a in Ha1, Ha2.
  destruct (Z.log2_spec (Zpos d) eq_refl) as [Hb1 Hb2]. fold b in Hb1, Hb2.
  assert (Ha0 : (0 <= a)%Z) by apply Z.log2_nonneg.
  assert (Hb0 : (0 <= b)%Z) by apply Z.log2_nonneg.
  assert (Hd : (p # d) * inject_Z (Zpos d) == inject_Z p).
  { unfold Qeq, Qmult, inject_Z. simpl. lia. }
  assert (Hup : p # d < pow2 (a - b + 1)).
  { apply (Qmult_lt_r _ _ (pow2 b)); [apply pow2_pos|].
    rewrite <- pow2_plus. replace (a - b + 1 + b)%Z with (Z.succ a) by lia.
    apply Qle_lt_trans with (inject_Z p).
    - rewrite <- Hd. apply Qmult_le_l; [exact Hq|].
      rewrite <- pow2_inject by assumption. rewrite <- Zle_Qle. exact Hb1.
    - rewrite <- pow2_inject by lia. rewrite <- Zlt_Qlt. exact Ha2. }
  assert (Hlo : pow2 (a - b - 1) < p # d).
  { apply (Qmult_lt_r _ _ (pow2 (Z.succ b))); [apply pow2_pos|].
    rewrite <- pow2_plus. replace (a - b - 1 + Z.succ b)%Z with a by lia.
    apply Qle_lt_trans with (inject_Z p).
    - rewrite <- pow2_inject by assumption. rewrite <- Zle_Qle. exact Ha1.
    - rewrite <- Hd. apply Qmult_lt_l; [exact Hq|].
      rewrite <- pow2_inject by lia. rewrite <- Zlt_Qlt. exact Hb2. }
  destruct (Qle_bool (pow2 (a - b)) (p # d)) eqn:E.
  - apply Qle_bool_iff in E. split; assumption.
  - split; [now apply Qlt_le_weak|].
    replace (a - b - 1 + 1)%Z with (a - b)%Z by lia.
    apply Qnot_le_lt. intros H. apply Qle_bool_iff in H. congruence.
Qed.

Lemma roundHalfEven_bounds (q : Q) :
  (Qfloor q <= roundHalfEven q <= Qfloor q + 1)%Z.
Proof.
  unfold roundHalfEven.
  destruct (Qcompare _ _); [destruct (Z.even _)| |]; lia.
Qed.

Lemma roundHalfEven_mono (x y : Q) :
  x <= y -> (roundHalfEven x <= roundHalfEven y)%Z.
Proof.
  intros H. pose proof (Qfloor_resp_le x y H) as Hf.
  destruct (Z.eq_dec (Qfloor x) (Qfloor y)) as [E|E].
  - unfold roundHalfEven. rewrite E.
    assert (Hr : x - inject_Z (Qfloor y) <= y - inject_Z (Qfloor y))
      by (apply Qplus_le_l; exact H).
    destruct (Qcompare_spec (x - inject_Z (Qfloor y)) (1#2)) as [Ex|Ex|Ex];
      destruct (Qcompare_spec (y - inject_Z (Qfloor y)) (1#2)) as [Ey|Ey|Ey];
      try destruct (Z.even (Qfloor y)); try lia;
      exfalso; apply (Qle_not_lt _ _ Hr);
      first [ rewrite Ex; exact Ey
            | rewrite Ey; exact Ex
            | apply Qlt_trans with (1#2); assumption ].
  - pose proof (roundHalfEven_bounds x). pose proof (roundHalfEven_bounds y). lia.
Qed.

Lemma roundHalfEven_Z (z : Z) : roundHalfEven (inject_Z z) = z.
Proof.
  unfold roundHalfEven. rewrite Qfloor_Z.
  assert (H : inject_Z z - inject_Z z < 1 # 2).
  { setoid_replace (inject_Z z - inject_Z z) with 0 by ring. reflexivity. }
  destruct (Qcompare_spec (inject_Z z - inject_Z z) (1 # 2)) as [E|E|E].
  - rewrite E in H. discriminate.
  - reflexivity.
  - exfalso. apply (Qlt_irrefl (1 # 2)). now apply Qlt_trans with (inject_Z z - inject_Z z).
Qed.

(** The scaled value lies below 2^53, and at or above 2^52 unless the
    exponent is the least one. *)
Lemma exponentOf_spec (q : Q) :
  0 < q ->
  q / pow2 (exponentOf q) < inject_Z (2 ^ 53) /\
  ((-1074 < exponentOf q)%Z -> inject_Z (2 ^ 52) <= q / pow2 (exponentOf q)) /\
  (-1074 <= exponentOf q)%Z.
Proof.
  intros Hq. destruct (floorLog2_spec q Hq) as [Hlo Hup].
  unfold exponentOf. set (k := floorLog2 q) in *.
  split; [|split; [|lia]].
  - apply Qlt_shift_div_r; [apply pow2_pos|].
    rewrite pow2_inject by lia. rewrite <- pow2_plus.
    apply Qlt_le_trans with (pow2 (k + 1)); [exact Hup|].
    apply pow2_le. lia.
  - intros He. assert (Hk : Z.max (k - 52) (-1074) = (k - 52)%Z) by lia.
    rewrite Hk. apply Qle_shift_div_l; [apply pow2_pos|].
    rewrite pow2_inject by lia. rewrite <- pow2_plus.
    replace (52 + (k - 52))%Z with k by lia. exact Hlo.
Qed.

Lemma div_pow2_mul (q : Q) (e : Z) : q / pow2 e * pow2 e == q.
Proof.
  unfold Qdiv. rewrite <- Qmult_assoc, (Qmult_comm (/ pow2 e)).
  rewrite Qmult_inv_r, Qmult_1_r; [reflexivity|].
  intros H. pose proof (pow2_pos e) as P. rewrite H in P. discriminate.
Qed.

Lemma roundPositive_nonneg (q : Q) : 0 < q -> 0 <= roundPositive q.
Proof.
  intros Hq. unfold roundPositive.
  apply Qmult_le_0_compat; [|apply Qlt_le_weak, pow2_pos].
  rewrite <- (Zle_Qle 0).
  pose proof (roundHalfEven_bounds (q / pow2 (exponentOf q))) as [H _].
  assert (0 <= Qfloor (q / pow2 (exponentOf q)))%Z; [|lia].
  rewrite <- (Qfloor_Z 0). apply Qfloor_resp_le.
  apply Qle_shift_div_l; [apply pow2_pos|].
  rewrite Qmult_0_l. now apply Qlt_le_weak.
Qed.

Lemma roundPositive_mono (x y : Q) :
  0 < x -> x <= y -> roundPositive x <= roundPositive y.
Proof.
  intros Hx Hxy.
  assert (Hy : 0 < y) by (apply Qlt_le_trans with x; assumption).
  destruct (exponentOf_spec x Hx) as (Hxu & Hxl & Hxe).
  destruct (exponentOf_spec y Hy) as (Hyu & Hyl & Hye).
  unfold roundPositive.
  set (ex := exponentOf x) in *. set (ey := exponentOf y) in *.
  destruct (Z.lt_trichotomy ex ey) as [Hlt|[Heq|Hgt]].
  - apply Qle_trans with (inject_Z (2 ^ 53) * pow2 ex).
    + apply Qmult_le_compat_r; [|apply Qlt_le_weak, pow2_pos].
      rewrite <- Zle_Qle. rewrite <- (roundHalfEven_Z (2 ^ 53)).
      apply roundHalfEven_mono. now apply Qlt_le_weak.
    + apply Qle_trans with (inject_Z (2 ^ 52) * pow2 ey).
      * rewrite !pow2_inject by lia. rewrite <- !pow2_plus. apply pow2_le. lia.
      * apply Qmult_le_compat_r; [|apply Qlt_le_weak, pow2_pos].
        rewrite <- Zle_Qle. rewrite <- (roundHalfEven_Z (2 ^ 52)).
        apply roundHalfEven_mono. apply Hyl. lia.
  - rewrite Heq. apply Qmult_le_compat_r; [|apply Qlt_le_weak, pow2_pos].
    rewrite <- Zle_Qle. apply roundHalfEven_mono.
    apply Qmult_le_compat_r; [exact Hxy|].
    apply Qlt_le_weak, Qinv_lt_0_compat, pow2_pos.
  - exfalso. apply (Qle_not_lt _ _ Hxy).
    assert (Hx' : pow2 (52 + ex) <= x).
    { rewrite pow2_plus, <- pow2_inject by lia.
      apply Qle_trans with (x / pow2 ex * pow2 ex);
        [|rewrite div_pow2_mul; apply Qle_refl].
      apply Qmult_le_compat_r; [apply Hxl; lia | apply Qlt_le_weak, pow2_pos]. }
    assert (Hy' : y < pow2 (53 + ey)).
    { rewrite pow2_plus, <- pow2_inject by lia.
      apply Qle_lt_trans with (y / pow2 ey * pow2 ey);
        [rewrite div_pow2_mul; apply Qle_refl|].
      apply Qmult_lt_compat_r; [apply pow2_pos | exact Hyu]. }
    apply Qlt_le_trans with (pow2 (53 + ey)); [exact Hy'|].
    apply Qle_trans with (pow2 (52 + ex)); [apply pow2_le; lia | exact Hx'].
Qed.

(** Rounding keeps the order of non-negative numbers. *)
Lemma binary64_mono (x y : Q) : 0 <= x -> x <= y -> binary64 x <= binary64 y.
Proof.
  intros Hx Hxy. unfold binary64. rewrite !Qred_correct.
  destruct (Qcompare_spec x 0) as [Ex|Ex|Ex].
  - destruct (Qcompare_spec y 0) as [Ey|Ey|Ey].
    + apply Qle_refl.
    + exfalso. apply (Qle_not_lt _ _ Hxy). now rewrite Ex.
    + now apply roundPositive_nonneg.
  - exfalso. now apply (Qle_not_lt _ _ Hx).
  - destruct (Qcompare_spec y 0) as [Ey|Ey|Ey].
    + exfalso. apply (Qle_not_lt _ _ Hxy). now rewrite Ey.
    + exfalso. apply (Qle_not_lt _ _ Hxy). now apply Qlt_trans with 0.
    + now apply roundPositive_mono.
Qed.

Lemma binary64_nonneg (x : Q) : 0 <= x -> 0 <= binary64 x.
Proof. intros H. now apply (binary64_mono 0 x). Qed.

Lemma add_mono (x y z : Q) : 0 <= x -> 0 <= y -> y <= z -> add x y <= add x z.
Proof.
  intros Hx Hy Hyz. unfold add. apply binary64_mono.
  - rewrite <- (Qplus_0_l 0). now apply Qplus_le_compat.
  - now apply Qplus_le_r.
Qed.

Lemma mul_mono (x y z : Q) : 0 <= x -> x <= y -> 0 <= z -> mul x z <= mul y z.
Proof.
  intros Hx Hxy Hz. unfold mul. apply binary64_mono.
  - now apply Qmult_le_0_compat.
  - now apply Qmult_le_compat_r.
Qed.

Lemma ofLength_mono (n m : nat) : (n <= m)%nat -> 0 <= ofLength n <= ofLength m.
Proof.
  intros H. unfold ofLength.
  assert (H0 : 0 <= inject_Z (Z.of_nat n)) by (rewrite <- (Zle_Qle 0); lia).
  split; [now apply binary64_nonneg|].
  apply binary64_mono; [exact H0|]. rewrite <- Zle_Qle. lia.
Qed.

End Binary64Facts.

(** The sum under [Math.min] grows with the number of relevant sentences. *)
Lemma relevantSum_mono (n m : nat) :
  n <= m ->
  (Binary64.add (Binary64.binary64 0.7)
     (Binary64.mul (Binary64.ofLength n) (Binary64.binary64 0.1))
   <= Binary64.add (Binary64.binary64 0.7)
        (Binary64.mul (Binary64.ofLength m) (Binary64.binary64 0.1)))%Q.
Proof.
  intros H. destruct (Binary64Facts.ofLength_mono n m H) as [H0 Hnm].
  assert (H1 : (0 <= Binary64.binary64 0.1)%Q) by (vm_compute; discriminate).
  apply Binary64Facts.add_mono.
  - vm_compute. discriminate.
  - unfold Binary64.mul. apply Binary64Facts.binary64_nonneg.
    now apply Qmult_le_0_compat.
  - now apply Binary64Facts.mul_mono.
Qed.

Lemma relevantConfidence_cap (n : nat) : (relevantConfidence n <= 0.95)%Q.
Proof.
  apply Qle_trans with (Binary64.binary64 0.95).
  - apply Q.le_min_r.
  - vm_compute. discriminate.
Qed.

Lemma relevantConfidence_mono (n m : nat) :
  n <= m -> (relevantConfidence n <= relevantConfidence m)%Q.
Proof.
  intros H. unfold relevantConfidence, Binary64.min.
  apply Q.min_le_compat_r. now apply relevantSum_mono.
Qed.

(** From three relevant sentences on the sum is 1 or more and the cap
    decides. *)
Lemma relevantConfidence_capped (n : nat) :
  3 <= n -> relevantConfidence n = Binary64.binary64 0.95.
Proof.
  intros H. unfold relevantConfidence, Binary64.min, Qmin, GenericMinMax.gmin.
  assert (Hgt : (Binary64.binary64 0.95
                 < Binary64.add (Binary64.binary64 0.7)
                     (Binary64.mul (Binary64.ofLength n) (Binary64.binary64 0.1)))%Q).
  { apply Qlt_le_trans with
      (Binary64.add (Binary64.binary64 0.7)
         (Binary64.mul (Binary64.ofLength 3) (Binary64.binary64 0.1))).
    - vm_compute. reflexivity.
    - now apply relevantSum_mono. }
  apply Qgt_alt in Hgt. now rewrite Hgt.
Qed.

(** The rounded rational arithmetic gives what the binary64 arithmetic of
    the kernel gives, for every count below 500. *)
Example relevantConfidence_agrees_with_kernel_floats :
  forallb (fun n => Qeq_bool (relevantConfidence n)
                             (Binary64.valueOf (relevantConfidenceFloat n)))
          (seq 0 500) = true.
Proof. vm_compute. reflexivity. Qed.

(** C6, as stated, fails by the rounding of the arithmetic: with one
    relevant sentence the confidence is the binary64 value
    0.7999999999999999 (which is 7205759403792793 / 2^53), not
    min(0.7 + 0.1 * 1, 0.95) = 0.8 nor the binary64 value nearest to it, and
    with two it is 0.8999999999999999, not 0.9. *)
Lemma relevant_confidence_is_rounded :
  (exists r,
     generateAnswerFromContent "Where is the elephant"
       (Some "The elephant walked home. It was a sunny day outside. The cat slept.")
       = Ok (Full r) /\
     List.length (relevantSentencesOf (questionWordsOf "Where is the elephant")
                    (candidateSentences
                       "The elephant walked home. It was a sunny day outside. The cat slept."))
       = 1 /\
     confidence r = (7205759403792793 # 9007199254740992)%Q /\
     ~ (confidence r == Qmin (0.7 + 0.1 * inject_Z 1) 0.95)%Q /\
     confidence r <> Binary64.binary64 (Qmin (0.7 + 0.1 * inject_Z 1) 0.95)) /\
  (exists r,
     generateAnswerFromContent "Where is the elephant"
       (Some "The elephant walked home. It was a sunny day outside. The elephant slept.")
       = Ok (Full r) /\
     List.length (relevantSentencesOf (questionWordsOf "Where is the elephant")
                    (candidateSentences
                       "The elephant walked home. It was a sunny day outside. The elephant slept."))
       = 2 /\
     confidence r = (2026619832316723 # 2251799813685248)%Q /\
     ~ (confidence r == Qmin (0.7 + 0.1 * inject_Z 2) 0.95)%Q /\
     confidence r <> Binary64.binary64 (Qmin (0.7 + 0.1 * inject_Z 2) 0.95)).
Proof.
  split; eexists; (split; [vm_compute; reflexivity|]);
    (split; [vm_compute; reflexivity|]);
    (split; [vm_compute; reflexivity|]);
    (split; [intros H; apply Qeq_bool_iff in H; vm_compute in H; discriminate
            | vm_compute; discriminate]).
Qed.

(** C6 (amended): in the relevant-sentences branch the confidence is the
    value of Math.min(0.7 + relevantCount * 0.1, 0.95) in binary64
    arithmetic, each literal and each operation rounded to the nearest
    binary64 value: 0.7999999999999999 for one relevant sentence,
    0.8999999999999999 for two, and 0.95 from three on.  Of two runs through
    that branch the one with at least as many relevant sentences has at
    least as high a confidence, and neither exceeds 0.95. *)
Theorem relevant_confidence_capped_monotone (question text question' text' : string) :
  50 <= String.length (trim text) ->
  50 <= String.length (trim text') ->
  0 < List.length (relevantSentencesOf (questionWordsOf question)
                     (candidateSentences text)) ->
  List.length (relevantSentencesOf (questionWordsOf question)
                 (candidateSentences text))
  <= List.length (relevantSentencesOf (questionWordsOf question')
                    (candidateSentences text')) ->
  exists r r',
    generateAnswerFromContent question (Some text) = Ok (Full r) /\
    generateAnswerFromContent question' (Some text') = Ok (Full r') /\
    confidence r =
      Binary64.min
        (Binary64.add (Binary64.binary64 0.7)
           (Binary64.mul
              (Binary64.ofLength
                 (List.length (relevantSentencesOf (questionWordsOf question)
                                 (candidateSentences text))))
              (Binary64.binary64 0.1)))
        (Binary64.binary64 0.95) /\
    (List.length (relevantSentencesOf (questionWordsOf question)
                    (candidateSentences text)) = 1 ->
     confidence r = Binary64.binary64 0.7999999999999999) /\
    (List.length (relevantSentencesOf (questionWordsOf question)
                    (candidateSentences text)) = 2 ->
     confidence r = Binary64.binary64 0.8999999999999999) /\
    (3 <= List.length (relevantSentencesOf (questionWordsOf question)
                         (candidateSentences text)) ->
     confidence r = Binary64.binary64 0.95) /\
    (confidence r <= confidence r')%Q /\
    (confidence r <= Binary64.binary64 0.95)%Q /\
    (confidence r' <= Binary64.binary64 0.95)%Q.
Proof.
  intros Hlen Hlen' Hpos Hle.
  destruct (relevantSentencesOf (questionWordsOf question)
              (candidateSentences text)) as [|best others] eqn:E;
    [simpl in Hpos; lia|].
  destruct (relevantSentencesOf (questionWordsOf question')
              (candidateSentences text')) as [|best' others'] eqn:E';
    [simpl in Hle; lia|].
  rewrite (generate_relevant _ _ _ _ Hlen E).
  rewrite (generate_relevant _ _ _ _ Hlen' E').
  eexists. eexists. split; [reflexivity|]. split; [reflexivity|].
  cbn [confidence List.length].
  split; [reflexivity|]. split; [|split; [|split; [|split; [|split]]]].
  - intros H. rewrite H. vm_compute. reflexivity.
  - intros H. rewrite H. vm_compute. reflexivity.
  - apply relevantConfidence_capped.
  - apply relevantConfidence_mono. exact Hle.
  - apply Q.le_min_r.
  - apply Q.le_min_r.
Qed.

Lemma relevant_confidence_capped_monotone_witness :
  exists r r',
    generateAnswerFromContent "Where is the elephant"
      (Some "The elephant walked home. It was a sunny day outside. The cat slept.")
      = Ok (Full r) /\
    generateAnswerFromContent "Where is the elephant"
      (Some "The elephant walked home. It was a sunny day outside. The elephant slept.")
      = Ok (Full r') /\
    confidence r =
      Binary64.min
        (Binary64.add (Binary64.binary64 0.7)
           (Binary64.mul
              (Binary64.ofLength
                 (List.length
                    (relevantSentencesOf (questionWordsOf "Where is the elephant")
                       (candidateSentences
                          "The elephant walked home. It was a sunny day outside. The cat slept."))))
              (Binary64.binary64 0.1)))
        (Binary64.binary64 0.95) /\
    (List.length
       (relevantSentencesOf (questionWordsOf "Where is the elephant")
          (candidateSentences
             "The elephant walked home. It was a sunny day outside. The cat slept."))
     = 1 ->
     confidence r = Binary64.binary64 0.7999999999999999) /\
    (List.length
       (relevantSentencesOf (questionWordsOf "Where is the elephant")
          (candidateSentences
             "The elephant walked home. It was a sunny day outside. The cat slept."))
     = 2 ->
     confidence r = Binary64.binary64 0.8999999999999999) /\
    (3 <= List.length
            (relevantSentencesOf (questionWordsOf "Where is the elephant")
               (candidateSentences
                  "The elephant walked home. It was a sunny day outside. The cat slept.")) ->
     confidence r = Binary64.binary64 0.95) /\
    (confidence r <= confidence r')%Q /\
    (confidence r <= Binary64.binary64 0.95)%Q /\
    (confidence r' <= Binary64.binary64 0.95)%Q.
Proof.
  apply (relevant_confidence_capped_monotone "Where is the elephant"
    "The elephant walked home. It was a sunny day outside. The cat slept."
    "Where is the elephant"
    "The elephant walked home. It was a sunny day outside. The elephant slept.").
  - vm_compute. lia.
  - vm_compute. lia.
  - vm_compute. lia.
  - vm_compute. lia.
Defined.

(** *** Totality and determinism *)

(** C8: for every question string and every document text, null and empty
    included, the generator raises nothing and returns an answer with a
    non-empty answer string; for the text "" (and for null) with the
    question "anything" it returns the bare general fallback. *)
Theorem generateAnswerFromContent_never_throws :
  (forall (question : string) (documentText : option string),
      exists a, generateAnswerFromContent question documentText = Ok a
                /\ answerText a <> EmptyString) /\
  generateAnswerFromContent "anything" (Some EmptyString) = Ok (Bare fallbackGeneral) /\
  generateAnswerFromContent "anything" None = Ok (Bare fallbackGeneral).
Proof.
  split; [|split; reflexivity].
  intros question [text|].
  - destruct (Nat.lt_ge_cases (String.length (trim text)) 50) as [Hs|Hl].
    + rewrite generate_unusable by (right; now exists text).
      eexists. split; [reflexivity|]. apply generateFallbackAnswer_nonempty.
    + destruct (relevantSentencesOf (questionWordsOf question)
                  (candidateSentences text)) as [|best others] eqn:E.
      * rewrite (generate_irrelevant _ _ Hl E).
        destruct (includes (toLowerCase question) "summary"
                  || includes (toLowerCase question) "overview").
        -- eexists. split; [reflexivity | discriminate].
        -- destruct (generateContextualAnswer_total question text) as [r [-> Hr]].
           now exists (Full r).
      * rewrite (generate_relevant _ _ _ _ Hl E).
        eexists. split; [reflexivity | discriminate].
  - eexists. split; [reflexivity|]. apply generateFallbackAnswer_nonempty.
Qed.

(** C9: two invocations of the generator on identical question and document
    text return identical results: the same answer, confidence and sources,
    or the same bare string. *)
Theorem generateAnswerFromContent_deterministic
    (question1 question2 : string) (documentText1 documentText2 : option string)
    (result1 result2 : Js Answer) :
  question1 = question2 ->
  documentText1 = documentText2 ->
  generateAnswerFromContent question1 documentText1 = result1 ->
  generateAnswerFromContent question2 documentText2 = result2 ->
  result1 = result2.
Proof. intros -> -> <- <-. reflexivity. Qed.

Lemma generateAnswerFromContent_deterministic_witness :
  Ok (Full {| answer := "The document mentions: The cat sat on the mat";
              confidence := 0.75%Q;
              sources := ["Relevant Document Section"] |})
  = generateAnswerFromContent "What did the cat sit on?"
      (Some "The cat sat on the mat. It was a sunny day outside.").
Proof.
  apply (generateAnswerFromContent_deterministic
           "What did the cat sit on?" "What did the cat sit on?"
           (Some "The cat sat on the mat. It was a sunny day outside.")
           (Some "The cat sat on the mat. It was a sunny day outside.")).
  - reflexivity.
  - reflexivity.
  - vm_compute. reflexivity.
  - reflexivity.
Defined.

(** *** The contextual answer *)

Lemma firstKeywordSentence_none (kws sentences : list string) :
  firstKeywordSentence kws sentences = None <->
  (forall s k, In s sentences -> In k kws -> includes (toLowerCase s) k = false).
Proof.
  induction sentences as [|x l IH]; simpl.
  - split; [intros _ s k [] | reflexivity].
  - destruct (existsb _ kws) eqn:E.
    + split; [discriminate|]. intros H.
      apply existsb_exists in E. destruct E as [k [Hk Hinc]].
      rewrite (H x k (or_introl eq_refl) Hk) in Hinc. discriminate.
    + rewrite IH. split.
      * intros H s k [<-|Hs] Hk; [|now apply H].
        destruct (includes (toLowerCase x) k) eqn:Hinc; [|reflexivity].
        assert (existsb (fun keyword => includes (toLowerCase x) keyword) kws = true)
          by (apply existsb_exists; now exists k).
        congruence.
      * intros H s k Hs Hk. apply H; [now right | assumption].
Qed.

Lemma firstKeywordSentence_some (kws sentences : list string) (found : string) :
  firstKeywordSentence kws sentences = Some found ->
  exists s k, In s sentences /\ In k kws
              /\ includes (toLowerCase s) k = true /\ found = trim s.
Proof.
  induction sentences as [|x l IH]; simpl; [discriminate|].
  destruct (existsb _ kws) eqn:E.
  - intros [= <-]. apply existsb_exists in E. destruct E as [k [Hk Hinc]].
    exists x, k. auto.
  - intros H. destruct (IH H) as (s & k & Hs & Hk & Hinc & ->).
    exists s, k. auto.
Qed.

(** On a non-empty list the context is the first keyword sentence, or else
    the first sentence, trimmed. *)
Lemma findRelevantContext_cons (t : QuestionType) (first : string)
    (rest : list string) :
  findRelevantContext t (first :: rest) =
  Ok (Some match firstKeywordSentence (relevantKeywordsOf t) (first :: rest) with
           | Some found => found
           | None => trim first
           end).
Proof.
  unfold findRelevantContext.
  destruct (firstKeywordSentence _ (first :: rest)); reflexivity.
Qed.

Lemma findRelevantContext_nil (t : QuestionType) :
  findRelevantContext t [] = Ok None.
Proof. reflexivity. Qed.

Lemma contextual_without_candidates (question text : string) :
  candidateSentences text = [] ->
  generateContextualAnswer question text = Ok (Full (fallbackRecord question)).
Proof.
  intros E. unfold generateContextualAnswer. rewrite E.
  rewrite findRelevantContext_nil. reflexivity.
Qed.

Lemma contextual_with_candidates (question text first : string)
    (rest : list string) :
  candidateSentences text = first :: rest ->
  generateContextualAnswer question text =
  Ok (Full (mentionsRecord
              match firstKeywordSentence
                      (relevantKeywordsOf (getQuestionType question))
                      (first :: rest) with
              | Some found => found
              | None => trim first
              end)).
Proof.
  intros E. unfold generateContextualAnswer. rewrite E.
  rewrite findRelevantContext_cons. cbn [bind].
  match goal with |- context [falsy (Some ?c)] =>
    assert (Hc : falsy (Some c) = false) end.
  { destruct (firstKeywordSentence _ (first :: rest)) as [found|] eqn:F.
    - apply firstKeywordSentence_some in F.
      destruct F as (s & k & Hs & _ & _ & ->).
      rewrite <- E in Hs. apply candidate_trim_length in Hs.
      simpl. apply Nat.eqb_neq. lia.
    - assert (Hs : In first (candidateSentences text)) by (rewrite E; now left).
      apply candidate_trim_length in Hs. simpl. apply Nat.eqb_neq. lia. }
  rewrite Hc. reflexivity.
Qed.

(** C2, as stated, fails: in the fourth branch, with no sentence containing
    a keyword of the question's type ("how"), the answer is still
    "The document mentions: " with the first sentence and confidence 0.75,
    not the fallback template with confidence 0.6. *)
Lemma no_keyword_sentence_still_mentioned :
  50 <= String.length
          (trim "The archive holds letters from the nineteenth century. Many are unread.") /\
  relevantSentencesOf (questionWordsOf "How does it work?")
    (candidateSentences
       "The archive holds letters from the nineteenth century. Many are unread.") = [] /\
  includes (toLowerCase "How does it work?") "summary"
  || includes (toLowerCase "How does it work?") "overview" = false /\
  getQuestionType "How does it work?" = QHow /\
  forallb (fun s => negb (existsb (fun k => includes (toLowerCase s) k)
                                  (relevantKeywordsOf QHow)))
          (candidateSentences
             "The archive holds letters from the nineteenth century. Many are unread.")
    = true /\
  generateAnswerFromContent "How does it work?"
    (Some "The archive holds letters from the nineteenth century. Many are unread.")
  = Ok (Full (mentionsRecord "The archive holds letters from the nineteenth century")) /\
  mentionsRecord "The archive holds letters from the nineteenth century"
  <> fallbackRecord "How does it work?".
Proof.
  split; [vm_compute; lia|].
  repeat split; try (vm_compute; reflexivity).
  vm_compute. discriminate.
Qed.

(** C2 (amended): in the fourth branch (text usable, no relevant sentence,
    question without "summary" or "overview"), when no candidate sentence
    contains a keyword of the question's type, the generator returns what
    [generateContextualAnswer] returns: the fallback template of the
    question's type with confidence 0.6 and source "General Document
    Analysis" when the text has no candidate sentence, and
    "The document mentions: " followed by the trimmed first candidate
    sentence, with confidence 0.75 and source "Relevant Document Section",
    when it has one. *)
Theorem contextual_fallback_only_without_candidates (question text : string) :
  50 <= String.length (trim text) ->
  relevantSentencesOf (questionWordsOf question) (candidateSentences text) = [] ->
  includes (toLowerCase question) "summary" = false ->
  includes (toLowerCase question) "overview" = false ->
  (forall s k, In s (candidateSentences text) ->
               In k (relevantKeywordsOf (getQuestionType question)) ->
               includes (toLowerCase s) k = false) ->
  generateAnswerFromContent question (Some text)
    = generateContextualAnswer question text /\
  (candidateSentences text = [] ->
   generateContextualAnswer question text = Ok (Full (fallbackRecord question))) /\
  (forall first rest, candidateSentences text = first :: rest ->
   generateContextualAnswer question text
     = Ok (Full (mentionsRecord (trim first)))).
Proof.
  intros Hlen Hrel Hsum Hov Hnone. split; [|split].
  - rewrite (generate_irrelevant _ _ Hlen Hrel), Hsum, Hov. reflexivity.
  - apply contextual_without_candidates.
  - intros first rest E.
    rewrite (contextual_with_candidates _ _ _ _ E).
    rewrite E in Hnone. apply firstKeywordSentence_none in Hnone.
    now rewrite Hnone.
Qed.

Lemma contextual_fallback_only_without_candidates_witness :
  generateAnswerFromContent "How does it work?"
    (Some "Short one. Tiny two. Brief 3. Small 44. Little 5. Minute 6. Slight 7.")
    = generateContextualAnswer "How does it work?"
        "Short one. Tiny two. Brief 3. Small 44. Little 5. Minute 6. Slight 7." /\
  (candidateSentences
     "Short one. Tiny two. Brief 3. Small 44. Little 5. Minute 6. Slight 7." = [] ->
   generateContextualAnswer "How does it work?"
     "Short one. Tiny two. Brief 3. Small 44. Little 5. Minute 6. Slight 7."
     = Ok (Full (fallbackRecord "How does it work?"))) /\
  (forall first rest,
     candidateSentences
       "Short one. Tiny two. Brief 3. Small 44. Little 5. Minute 6. Slight 7."
       = first :: rest ->
     generateContextualAnswer "How does it work?"
       "Short one. Tiny two. Brief 3. Small 44. Little 5. Minute 6. Slight 7."
       = Ok (Full (mentionsRecord (trim first)))).
Proof.
  apply (contextual_fallback_only_without_candidates "How does it work?"
    "Short one. Tiny two. Brief 3. Small 44. Little 5. Minute 6. Slight 7.").
  - vm_compute. lia.
  - reflexivity.
  - reflexivity.
  - reflexivity.
  - intros s k Hs. vm_compute in Hs. destruct Hs.
Defined.

(** C10: on a non-empty sentence list [findRelevantContext] never returns
    null; when no sentence contains a keyword of the question type, and
    always for the types "who" and "general", which have no keyword list, it
    returns the trimmed first sentence.  Hence, when the text has a
    candidate sentence and none contains a keyword, the contextual answer is
    "The document mentions: " followed by the trimmed first candidate, with
    confidence 0.75. *)
Theorem findRelevantContext_defaults_to_first (t : QuestionType)
    (first : string) (rest : list string) :
  (exists context, findRelevantContext t (first :: rest) = Ok (Some context)) /\
  ((forall s k, In s (first :: rest) -> In k (relevantKeywordsOf t) ->
                includes (toLowerCase s) k = false) ->
   findRelevantContext t (first :: rest) = Ok (Some (trim first))) /\
  (t = QWho \/ t = QGeneral ->
   keywords t = None /\
   findRelevantContext t (first :: rest) = Ok (Some (trim first))) /\
  (forall question text,
     getQuestionType question = t ->
     candidateSentences text = first :: rest ->
     (forall s k, In s (first :: rest) -> In k (relevantKeywordsOf t) ->
                  includes (toLowerCase s) k = false) ->
     generateContextualAnswer question text
     = Ok (Full {| answer := ("The document mentions: " ++ trim first)%string;
                   confidence := 0.75%Q;
                   sources := ["Relevant Document Section"] |})).
Proof.
  assert (Hnone : (forall s k, In s (first :: rest) -> In k (relevantKeywordsOf t) ->
                               includes (toLowerCase s) k = false) ->
                  firstKeywordSentence (relevantKeywordsOf t) (first :: rest) = None)
    by apply firstKeywordSentence_none.
  split; [|split; [|split]].
  - rewrite findRelevantContext_cons. now eexists.
  - intros H. rewrite findRelevantContext_cons. now rewrite (Hnone H).
  - intros Ht.
    assert (Hk : relevantKeywordsOf t = []) by (destruct Ht as [->| ->]; reflexivity).
    split; [destruct Ht as [->| ->]; reflexivity|].
    rewrite findRelevantContext_cons, Hnone; [reflexivity|].
    intros s k _. rewrite Hk. intros [].
  - intros question text Ht E H.
    rewrite (contextual_with_candidates _ _ _ _ E), Ht, (Hnone H). reflexivity.
Qed.

Lemma findRelevantContext_defaults_to_first_witness :
  generateContextualAnswer "Who wrote the letters?"
    "The archive holds letters from the nineteenth century. Many are unread."
  = Ok (Full {| answer := ("The document mentions: "
                  ++ trim "The archive holds letters from the nineteenth century")%string;
                confidence := 0.75%Q;
                sources := ["Relevant Document Section"] |}).
Proof.
  apply (proj2 (proj2 (proj2
           (findRelevantContext_defaults_to_first QWho
              "The archive holds letters from the nineteenth century"
              [" Many are unread"])))).
  - reflexivity.
  - reflexivity.
  - intros s k _ [].
Defined.

(** *** Question classification *)

(** Every piece of a split occurs in the string, and the first piece of a
    split that does not start inside a delimiter run is a prefix of it. *)
Lemma splitRuns_pieces (d : ascii -> bool) (s : string) :
  forall inrun,
    splitRuns d inrun s <> [] /\
    (forall w, In w (splitRuns d inrun s) -> exists a b, s = (a ++ w ++ b)%string) /\
    (forall t ts, splitRuns d false s = t :: ts -> exists b, s = (t ++ b)%string).
Proof.
  induction s as [|c s IH]; intros inrun.
  - simpl. split; [discriminate|]. split.
    + intros w [<-|[]]. now exists EmptyString, EmptyString.
    + intros t ts [= <- _]. now exists EmptyString.
  - assert (Hsub : forall inrun' w, In w (splitRuns d inrun' s) ->
                     exists a b, String c s = (a ++ w ++ b)%string).
    { intros inrun' w Hw.
      destruct (proj1 (proj2 (IH inrun')) w Hw) as [a [b ->]].
      now exists (String c a), b. }
    simpl. destruct (d c) eqn:Hd.
    + split; [destruct inrun; [apply IH | discriminate]|]. split.
      * intros w Hw. destruct inrun; [now apply (Hsub true)|].
        destruct Hw as [<-|Hw]; [|now apply (Hsub true)].
        now exists EmptyString, (String c s).
      * intros t ts [= <- _]. now exists (String c s).
    + destruct (splitRuns d false s) as [|t ts] eqn:E.
      * exfalso. now apply (proj1 (IH false)).
      * destruct (proj2 (proj2 (IH false)) t ts eq_refl) as [b Hb].
        split; [discriminate|]. split.
        -- intros w [<-|Hw].
           ++ exists EmptyString, b. simpl. now rewrite Hb.
           ++ apply (Hsub false). rewrite E. now right.
        -- intros t' ts' [= <- _]. exists b. simpl. now rewrite Hb.
Qed.

Lemma includes_empty (s : string) : includes s EmptyString = true.
Proof. apply includes_app. now exists EmptyString, s. Qed.

(** The leading word occurs in the lower-cased question. *)
Lemma leadingWord_included (question : string) :
  includes (toLowerCase question) (leadingWord question) = true.
Proof.
  unfold leadingWord.
  destruct (filter _ (split isWhiteSpace (toLowerCase question)))
    as [|w ws] eqn:E; simpl; [apply includes_empty|].
  assert (Hw : In w (split isWhiteSpace (toLowerCase question))).
  { assert (H : In w (w :: ws)) by now left.
    rewrite <- E in H. now apply filter_In in H. }
  apply includes_app.
  now apply (proj1 (proj2 (splitRuns_pieces isWhiteSpace (toLowerCase question) false))).
Qed.

Lemma leadingWordType_name (question : string) :
  leadingWordType question <> QGeneral ->
  typeName (leadingWordType question) = leadingWord question.
Proof.
  unfold leadingWordType.
  destruct (find _ interrogatives) as [t|] eqn:F; [intros _ | congruence].
  apply find_some in F. now apply String.eqb_eq.
Qed.

(** C7, as stated, fails: the leading word of "How is what defined" is
    "how", and the code classifies the question as "what"; "Show me the
    budget" has no interrogative as leading word, and the code classifies it
    as "how". *)
Lemma leading_word_does_not_decide :
  leadingWord "How is what defined" = "how" /\
  leadingWordType "How is what defined" = QHow /\
  getQuestionType "How is what defined" = QWhat /\
  leadingWordType "Show me the budget" = QGeneral /\
  getQuestionType "Show me the budget" = QHow.
Proof. repeat split; vm_compute; reflexivity. Qed.

(** C7 (amended): the question type is the first of what, how, why, when,
    where, who, in this order, that occurs as a substring anywhere in the
    lower-cased question, and general when none occurs.  It is the type of
    the leading interrogative word whenever no interrogative earlier in that
    order occurs in the question. *)
Theorem getQuestionType_first_occurring (question : string) :
  getQuestionType question
  = match find (fun t => includes (toLowerCase question) (typeName t))
               interrogatives with
    | Some t => t
    | None => QGeneral
    end /\
  (leadingWordType question <> QGeneral ->
   (forall t, rank t < rank (leadingWordType question) ->
              includes (toLowerCase question) (typeName t) = false) ->
   getQuestionType question = leadingWordType question).
Proof.
  split.
  - unfold getQuestionType, interrogatives. cbn [find typeName].
    repeat match goal with
           | |- context [includes ?l ?k] => destruct (includes l k)
           end; reflexivity.
  - intros Hgen Hearlier.
    pose proof (leadingWord_included question) as Hinc.
    rewrite <- (leadingWordType_name question Hgen) in Hinc.
    pose proof (Hearlier QWhat) as A1. pose proof (Hearlier QHow) as A2.
    pose proof (Hearlier QWhy) as A3. pose proof (Hearlier QWhen) as A4.
    pose proof (Hearlier QWhere) as A5.
    unfold getQuestionType.
    destruct (leadingWordType question); cbn [typeName rank] in *;
      try congruence;
      try rewrite A1 by lia; try rewrite A2 by lia; try rewrite A3 by lia;
      try rewrite A4 by lia; try rewrite A5 by lia;
      rewrite Hinc; reflexivity.
Qed.

Lemma getQuestionType_first_occurring_witness :
  getQuestionType "When does the whole thing start?"
  = leadingWordType "When does the whole thing start?".
Proof.
  apply (proj2 (getQuestionType_first_occurring "When does the whole thing start?")).
  - vm_compute. discriminate.
  - intros t Ht. vm_compute in Ht.
    destruct t; try reflexivity; vm_compute in Ht; lia.
Defined.

(** * Further properties of the code *)

(** ** File names and MIME types *)

Lemma substring_all (s : string) : String.substring 0 (String.length s) s = s.
Proof. induction s as [|c s IH]; simpl; [reflexivity | now rewrite IH]. Qed.

Lemma substring_skip_app (a suffix : string) :
  String.substring (String.length a) (String.length suffix) (a ++ suffix) = suffix.
Proof. induction a as [|c a IH]; simpl; [apply substring_all | exact IH]. Qed.

Lemma substring_cut (s : string) (k : nat) :
  k <= String.length s ->
  s = (String.substring 0 k s ++ String.substring k (String.length s - k) s)%string.
Proof.
  revert k; induction s as [|c s IH]; intros k Hk; simpl in Hk.
  - assert (k = 0) by lia. subst. reflexivity.
  - destruct k as [|k]; simpl.
    + now rewrite substring_all.
    + f_equal. apply IH. lia.
Qed.

Lemma string_app_length (a b : string) :
  String.length (a ++ b) = String.length a + String.length b.
Proof. induction a as [|c a IH]; simpl; [reflexivity | now rewrite IH]. Qed.

(** [endsWith s suffix] holds exactly when [s] is some string followed by
    [suffix]. *)
Lemma endsWith_app (s suffix : string) :
  endsWith s suffix = true <-> exists a, s = (a ++ suffix)%string.
Proof.
  unfold endsWith. rewrite andb_true_iff, Nat.leb_le, String.eqb_eq. split.
  - intros [Hle Hsub].
    exists (String.substring 0 (String.length s - String.length suffix) s).
    assert (H : String.length s - String.length suffix <= String.length s) by lia.
    apply substring_cut in H.
    replace (String.length s - (String.length s - String.length suffix))
      with (String.length suffix) in H by lia.
    rewrite Hsub in H. exact H.
  - intros [a ->]. rewrite string_app_length. split; [lia|].
    replace (String.length a + String.length suffix - String.length suffix)
      with (String.length a) by lia.
    apply substring_skip_app.
Qed.

Lemma lastUnit_app (a b : string) :
  b <> EmptyString -> lastUnit (a ++ b) = lastUnit b.
Proof.
  intros Hb. induction a as [|c a IH]; [reflexivity|].
  simpl. rewrite IH. destruct (a ++ b)%string eqn:E; [|reflexivity].
  destruct a; simpl in E; [contradiction | discriminate].
Qed.

Lemma endsWith_lastUnit (s suffix : string) :
  suffix <> EmptyString -> endsWith s suffix = true -> lastUnit s = lastUnit suffix.
Proof.
  intros Hne H. apply endsWith_app in H. destruct H as [a ->].
  now apply lastUnit_app.
Qed.

(** No file name has two of the four extensions. *)
Lemma extensions_exclusive (filename e1 e2 : string) :
  In e1 [".pdf"; ".docx"; ".doc"; ".txt"] ->
  In e2 [".pdf"; ".docx"; ".doc"; ".txt"] ->
  endsWith filename e1 = true -> endsWith filename e2 = true -> e1 = e2.
Proof.
  intros H1 H2 E1 E2.
  assert (N1 : e1 <> EmptyString)
    by (simpl in H1; intuition (subst; discriminate)).
  assert (N2 : e2 <> EmptyString)
    by (simpl in H2; intuition (subst; discriminate)).
  pose proof (endsWith_lastUnit _ _ N1 E1) as L1.
  pose proof (endsWith_lastUnit _ _ N2 E2) as L2.
  rewrite L1 in L2. clear - H1 H2 L2.
  simpl in H1, H2.
  destruct H1 as [<-|[<-|[<-|[<-|[]]]]];
    destruct H2 as [<-|[<-|[<-|[<-|[]]]]];
    try reflexivity; simpl in L2; discriminate.
Qed.

(** X1: the four extension tests of [getMimeType] exclude one another, so
    the type returned is decided by the extension alone and not by the order
    of the tests: each type is returned exactly for the names with its
    extension, and "application/octet-stream" exactly for the names with
    none of the four. *)
Theorem getMimeType_by_extension (filename : string) :
  (getMimeType filename = mimePdf <-> endsWith filename ".pdf" = true) /\
  (getMimeType filename = mimeDocx <-> endsWith filename ".docx" = true) /\
  (getMimeType filename = mimeDoc <-> endsWith filename ".doc" = true) /\
  (getMimeType filename = mimeTxt <-> endsWith filename ".txt" = true) /\
  (getMimeType filename = mimeOctet <->
   endsWith filename ".pdf" = false /\ endsWith filename ".docx" = false /\
   endsWith filename ".doc" = false /\ endsWith filename ".txt" = false).
Proof.
  pose proof (extensions_exclusive filename) as X.
  assert (I1 : In ".pdf" [".pdf"; ".docx"; ".doc"; ".txt"]) by (simpl; tauto).
  assert (I2 : In ".docx" [".pdf"; ".docx"; ".doc"; ".txt"]) by (simpl; tauto).
  assert (I3 : In ".doc" [".pdf"; ".docx"; ".doc"; ".txt"]) by (simpl; tauto).
  assert (I4 : In ".txt" [".pdf"; ".docx"; ".doc"; ".txt"]) by (simpl; tauto).
  unfold getMimeType.
  destruct (endsWith filename ".pdf") eqn:E1;
    destruct (endsWith filename ".docx") eqn:E2;
    destruct (endsWith filename ".doc") eqn:E3;
    destruct (endsWith filename ".txt") eqn:E4;
    try (pose proof (X _ _ I1 I2 E1 E2); discriminate);
    try (pose proof (X _ _ I1 I3 E1 E3); discriminate);
    try (pose proof (X _ _ I1 I4 E1 E4); discriminate);
    try (pose proof (X _ _ I2 I3 E2 E3); discriminate);
    try (pose proof (X _ _ I2 I4 E2 E4); discriminate);
    try (pose proof (X _ _ I3 I4 E3 E4); discriminate);
    repeat split; intros; try reflexivity; try discriminate;
    repeat match goal with H : _ /\ _ |- _ => destruct H end; discriminate.
Qed.

(** ** Text extraction and the process handler *)

Lemma getMimeType_doc_or_octet (filename : string) :
  endsWith filename ".doc" = true \/
  (endsWith filename ".pdf" = false /\ endsWith filename ".docx" = false /\
   endsWith filename ".txt" = false) ->
  getMimeType filename = mimeDoc \/ getMimeType filename = mimeOctet.
Proof.
  pose proof (extensions_exclusive filename) as X.
  assert (I1 : In ".pdf" [".pdf"; ".docx"; ".doc"; ".txt"]) by (simpl; tauto).
  assert (I2 : In ".docx" [".pdf"; ".docx"; ".doc"; ".txt"]) by (simpl; tauto).
  assert (I3 : In ".doc" [".pdf"; ".docx"; ".doc"; ".txt"]) by (simpl; tauto).
  unfold getMimeType. intros [Hd|(Hp & Hx & Ht)].
  - destruct (endsWith filename ".pdf") eqn:E1;
      [pose proof (X _ _ I1 I3 E1 Hd); discriminate|].
    destruct (endsWith filename ".docx") eqn:E2;
      [pose proof (X _ _ I2 I3 E2 Hd); discriminate|].
    rewrite Hd. now left.
  - rewrite Hp, Hx, Ht. destruct (endsWith filename ".doc"); [now left | now right].
Qed.

Section ExtractionFacts.

Variable pdfText docxText txtText : string -> Js string.

(** X2: whatever the extraction libraries raise, [extractTextFromFile]
    raises one of four fixed messages; when it returns a text, the MIME
    type is one of the three it dispatches on and the text is the one the
    library for that type returned. *)
Theorem extractTextFromFile_outcome (filePath mimeType : string) :
  match extractTextFromFile pdfText docxText txtText filePath mimeType with
  | Throw message =>
      In message ["Failed to extract text from PDF";
                  "Failed to extract text from DOCX";
                  "Failed to extract text from TXT";
                  "Unsupported file type for text extraction"]
  | Ok text =>
      (mimeType = mimePdf /\ pdfText filePath = Ok text) \/
      (mimeType = mimeDocx /\ docxText filePath = Ok text) \/
      (mimeType = mimeTxt /\ txtText filePath = Ok text)
  end.
Proof.
  unfold extractTextFromFile.
  destruct (String.eqb_spec mimeType mimePdf) as [->|_].
  { unfold extractTextFromPDF. destruct (pdfText filePath); simpl; auto. }
  destruct (String.eqb_spec mimeType mimeDocx) as [->|_].
  { unfold extractTextFromDOCX. destruct (docxText filePath); simpl; auto. }
  destruct (String.eqb_spec mimeType mimeTxt) as [->|_].
  { unfold extractTextFromTXT. destruct (txtText filePath); simpl; auto 6. }
  simpl. auto 6.
Qed.

Variable findById : string -> Js (option Document).
Variable save : Document -> Js unit.

(** X3: a stored document whose original name ends in ".doc", or in none
    of ".pdf", ".docx" and ".txt", is never processed: the process handler
    answers 400 "Unsupported file type for text extraction" whatever the
    extraction libraries would do, and saves nothing.  The upload filter
    nevertheless admits the type "application/msword". *)
Theorem unsupported_names_never_processed (id : string) (document : Document) :
  findById id = Ok (Some document) ->
  endsWith (originalName document) ".doc" = true \/
  (endsWith (originalName document) ".pdf" = false /\
   endsWith (originalName document) ".docx" = false /\
   endsWith (originalName document) ".txt" = false) ->
  processHandler pdfText docxText txtText findById save id
    = (unsupportedResponse, None) /\
  fileFilter mimeDoc = Ok true.
Proof.
  intros Hfind Hname. split; [|reflexivity].
  apply getMimeType_doc_or_octet in Hname.
  unfold processHandler. rewrite Hfind.
  unfold extractMeaningfulText, extractTextFromFile.
  destruct Hname as [-> | ->]; reflexivity.
Qed.

(** X4: the process handler saves a document exactly when it answers 200,
    and a document it saves is marked processed, keeps its identifier,
    names and path, and holds the extracted text, whose trimmed length is
    at least 10, together with the number of pieces that splitting the
    text at white space gives, which is at least 1. *)
Theorem process_saves_meaningful_text (id : string) :
  (status (fst (processHandler pdfText docxText txtText findById save id)) = 200
   <-> snd (processHandler pdfText docxText txtText findById save id) <> None) /\
  (forall saved,
     snd (processHandler pdfText docxText txtText findById save id) = Some saved ->
     exists document text,
       findById id = Ok (Some document) /\
       extractTextFromFile pdfText docxText txtText
         (filePath document) (getMimeType (originalName document)) = Ok text /\
       _id saved = _id document /\
       originalName saved = originalName document /\
       filePath saved = filePath document /\
       processed saved = true /\
       extractedText saved = Some text /\
       10 <= String.length (trim text) /\
       wordCount saved = Some (List.length (split isWhiteSpace text)) /\
       1 <= List.length (split isWhiteSpace text)).
Proof.
  unfold processHandler.
  destruct (findById id) as [[document|]|e]; simpl;
    try (split; [split; [discriminate | congruence] | discriminate]).
  unfold extractMeaningfulText.
  destruct (extractTextFromFile pdfText docxText txtText
              (filePath document) (getMimeType (originalName document)))
    as [text|e] eqn:E; cbn [bind];
    try (simpl; split; [split; [discriminate | congruence] | discriminate]).
  destruct (falsy (Some text) || (String.length (trim text) <? 10)) eqn:G;
    try (simpl; split; [split; [discriminate | congruence] | discriminate]).
  apply orb_false_iff in G. destruct G as [_ G]. apply Nat.ltb_ge in G.
  destruct (save _) as [[]|e]; simpl;
    try (split; [split; [discriminate | congruence] | discriminate]).
  split; [split; [discriminate | reflexivity]|].
  intros saved [= <-]. exists document, text. simpl.
  repeat split; try assumption.
  unfold split.
  destruct (splitRuns_pieces isWhiteSpace text false) as [Hne _].
  destruct (splitRuns isWhiteSpace false text); [congruence | simpl; lia].
Qed.

End ExtractionFacts.

Lemma unsupported_names_never_processed_witness :
  processHandler (fun _ => Ok "never read") (fun _ => Ok "never read")
    (fun _ => Ok "never read")
    (fun _ => Ok (Some (sampleDocument "thesis.doc" false None)))
    (fun _ => Ok tt) "65f0c0ffee"
    = (unsupportedResponse, None) /\
  fileFilter mimeDoc = Ok true.
Proof.
  apply (unsupported_names_never_processed _ _ _ _ _ "65f0c0ffee"
           (sampleDocument "thesis.doc" false None)).
  - reflexivity.
  - left. reflexivity.
Defined.

Lemma process_saves_meaningful_text_witness :
  exists document text,
    Ok (Some (sampleDocument "notes.txt" false None)) = Ok (Some document) /\
    extractTextFromFile (fun _ => Throw "no pdf") (fun _ => Throw "no docx")
      (fun _ => Ok " twelve units and more ")
      (filePath document) (getMimeType (originalName document)) = Ok text /\
    "65f0c0ffee" = _id document /\
    "notes.txt" = originalName document /\
    "uploads/1700000000000-42" = filePath document /\
    true = true /\
    Some " twelve units and more " = Some text /\
    10 <= String.length (trim text) /\
    Some 6 = Some (List.length (split isWhiteSpace text)) /\
    1 <= List.length (split isWhiteSpace text).
Proof.
  apply (proj2 (process_saves_meaningful_text
                  (fun _ => Throw "no pdf") (fun _ => Throw "no docx")
                  (fun _ => Ok " twelve units and more ")
                  (fun _ => Ok (Some (sampleDocument "notes.txt" false None)))
                  (fun _ => Ok tt) "65f0c0ffee")
          {| _id := "65f0c0ffee";
             filename := "1700000000000-42";
             originalName := "notes.txt";
             filePath := "uploads/1700000000000-42";
             fileSize := 2048;
             uploadDate := 1700;
             processed := true;
             content := Some "Document processed successfully. Extracted 6 words of text.";
             extractedText := Some " twelve units and more ";
             wordCount := Some 6 |}).
  reflexivity.
Defined.

(** ** The stored word count *)

Lemma splitRuns_inrun_trimStart (s : string) :
  splitRuns isWhiteSpace true s = splitRuns isWhiteSpace false (trimStart s).
Proof.
  induction s as [|c s IH]; [reflexivity|].
  simpl. destruct (isWhiteSpace c) eqn:E; [exact IH|].
  simpl. now rewrite E.
Qed.

Lemma length_cons_head (c : ascii) (l : list string) :
  l <> [] ->
  List.length (match l with
               | t :: ts => String c t :: ts
               | [] => [String c EmptyString]
               end) = List.length l.
Proof. destruct l; [congruence | reflexivity]. Qed.

(** A string of white space only splits into one empty piece after a
    delimiter and into two otherwise. *)
Lemma splitRuns_white_only (s : string) :
  trimEnd s = EmptyString ->
  splitRuns isWhiteSpace true s = [EmptyString] /\
  (s <> EmptyString -> splitRuns isWhiteSpace false s = [EmptyString; EmptyString]).
Proof.
  induction s as [|c s IH]; intros H; [split; [reflexivity | congruence]|].
  simpl in H. destruct (trimEnd s) eqn:T; [|discriminate].
  destruct (isWhiteSpace c) eqn:E; [|discriminate].
  destruct (IH eq_refl) as [IH1 _]. simpl. rewrite E, IH1. split; reflexivity.
Qed.

Lemma splitRuns_trimEnd_length (s : string) :
  trimEnd s <> EmptyString ->
  forall inrun,
    List.length (splitRuns isWhiteSpace inrun s)
    = List.length (splitRuns isWhiteSpace inrun (trimEnd s))
      + (if String.eqb s (trimEnd s) then 0 else 1).
Proof.
  induction s as [|c s IH]; intros Hne inrun; [now elim Hne|].
  cbn [trimEnd] in *. destruct (trimEnd s) as [|c' t] eqn:T.
  - destruct (isWhiteSpace c) eqn:E; [now elim Hne|].
    cbn [splitRuns]. rewrite E.
    destruct s as [|c2 s2].
    + simpl. rewrite Ascii.eqb_refl. reflexivity.
    + destruct (splitRuns_white_only (String c2 s2) T) as [_ H2].
      rewrite H2 by discriminate. simpl. rewrite Ascii.eqb_refl. reflexivity.
  - assert (Hne' : String c' t <> EmptyString) by discriminate.
    specialize (IH Hne').
    remember (String c' t) as u eqn:Hu.
    assert (Heq : String.eqb (String c s) (String c u) = String.eqb s u)
      by (cbn [String.eqb]; now rewrite Ascii.eqb_refl).
    rewrite Heq. cbn [splitRuns]. destruct (isWhiteSpace c) eqn:E.
    + destruct inrun; cbn [List.length]; rewrite (IH true); reflexivity.
    + rewrite !length_cons_head
        by apply (proj1 (splitRuns_pieces isWhiteSpace _ false)).
      apply IH.
Qed.

(** X5: the word count the process handler stores counts the pieces of
    [text.split(/\s+/)], so white space at the start of the text adds one
    to it, and white space at the end adds one to it. *)
Theorem wordCount_counts_outer_white_space (text : string) :
  (trimStart text <> text ->
   List.length (split isWhiteSpace text)
   = S (List.length (split isWhiteSpace (trimStart text)))) /\
  (trimEnd text <> text ->
   List.length (split isWhiteSpace text)
   = S (List.length (split isWhiteSpace (trimEnd text)))).
Proof.
  split.
  - destruct text as [|c s]; [intros H; now elim H|].
    unfold split. cbn [splitRuns trimStart].
    destruct (isWhiteSpace c) eqn:E; [|intros H; now elim H].
    intros _. now rewrite splitRuns_inrun_trimStart.
  - intros H. unfold split.
    destruct (trimEnd text) as [|c t] eqn:T.
    + destruct (splitRuns_white_only text T) as [_ H2].
      rewrite H2; [reflexivity|]. intros ->. now apply H.
    + pose proof (splitRuns_trimEnd_length text) as L.
      rewrite T in L. rewrite (L ltac:(discriminate) false).
      destruct (String.eqb_spec text (String c t)) as [->|_]; [now elim H | lia].
Qed.

Lemma wordCount_counts_outer_white_space_witness :
  List.length (split isWhiteSpace "hello world ")
  = S (List.length (split isWhiteSpace (trimEnd "hello world "))).
Proof.
  apply (proj2 (wordCount_counts_outer_white_space "hello world ")).
  vm_compute. discriminate.
Defined.

(** ** The ask handler *)

Lemma generate_total (question : string) (documentText : option string) :
  exists result, generateAnswerFromContent question documentText = Ok result.
Proof.
  destruct documentText as [text|]; [|now eexists].
  destruct (Nat.lt_ge_cases (String.length (trim text)) 50) as [Hs|Hl].
  - rewrite generate_unusable by (right; now exists text). now eexists.
  - destruct (relevantSentencesOf (questionWordsOf question)
                (candidateSentences text)) as [|best others] eqn:E.
    + rewrite (generate_irrelevant _ _ Hl E).
      destruct (includes (toLowerCase question) "summary"
                || includes (toLowerCase question) "overview"); [now eexists|].
      destruct (generateContextualAnswer_total question text) as [r [-> _]].
      now eexists.
    + rewrite (generate_relevant _ _ _ _ Hl E). now eexists.
Qed.

(** On a usable text the generator returns a record, not a bare string. *)
Lemma generate_usable_full (question text : string) :
  50 <= String.length (trim text) ->
  exists r, generateAnswerFromContent question (Some text) = Ok (Full r).
Proof.
  intros Hl.
  destruct (relevantSentencesOf (questionWordsOf question)
              (candidateSentences text)) as [|best others] eqn:E.
  - rewrite (generate_irrelevant _ _ Hl E).
    destruct (includes (toLowerCase question) "summary"
              || includes (toLowerCase question) "overview"); [now eexists|].
    destruct (generateContextualAnswer_total question text) as [r [-> _]].
    now eexists.
  - rewrite (generate_relevant _ _ _ _ Hl E). now eexists.
Qed.

Lemma processHandler_saved_text
    (pdfText docxText txtText : string -> Js string)
    (findById : string -> Js (option Document)) (save : Document -> Js unit)
    (id : string) (saved : Document) :
  snd (processHandler pdfText docxText txtText findById save id) = Some saved ->
  processed saved = true /\
  exists text, extractedText saved = Some text /\ 10 <= String.length (trim text).
Proof.
  unfold processHandler.
  destruct (findById id) as [[document|]|e]; simpl; try discriminate.
  destruct (extractMeaningfulText pdfText docxText txtText document)
    as [text|e] eqn:E; simpl; try discriminate.
  destruct (save _) as [[]|e']; simpl; try discriminate.
  intros [= <-]. simpl. split; [reflexivity|]. exists text. split; [reflexivity|].
  unfold extractMeaningfulText in E.
  destruct (extractTextFromFile _ _ _ _ _) as [text'|]; cbn [bind] in E;
    [|discriminate].
  destruct (falsy (Some text') || (String.length (trim text') <? 10)) eqn:G;
    [discriminate|].
  injection E as <-. apply orb_false_iff in G. destruct G as [_ G].
  now apply Nat.ltb_ge in G.
Qed.

Lemma falsy_nonempty (s : string) : s <> EmptyString -> falsy (Some s) = false.
Proof. destruct s; [congruence | reflexivity]. Qed.

Lemma truthy_string (s : string) : s <> EmptyString -> truthy (JString s) = true.
Proof. destruct s; [congruence | reflexivity]. Qed.

Section AskFacts.

Variable findById : JsonValue -> Js (option Document).
Variable saveQuery : Query.t -> Js unit.
Variable newQueryId : string.
Variable createdAt : nat.
Variable now : string.

(** X6: a document the process handler has saved can be asked about: with
    a truthy document id, a non-empty string as question and a working
    database the ask handler answers 200, never "Document not processed yet"
    or "No text content available for analysis".  The response carries the
    answer, confidence and sources read off the generator's result, which
    are undefined exactly when the text has fewer than 50 units after
    trimming, where the generator returns a bare string; the query saved
    then has no answer and no confidence, and the empty list of sources. *)
Theorem ask_after_process
    (pdfText docxText txtText : string -> Js string)
    (findById0 : string -> Js (option Document)) (save : Document -> Js unit)
    (id question : string) (documentId : JsonValue) (saved : Document) :
  snd (processHandler pdfText docxText txtText findById0 save id) = Some saved ->
  findById documentId = Ok (Some saved) ->
  truthy documentId = true ->
  question <> EmptyString ->
  (forall q, saveQuery q = Ok tt) ->
  exists text result,
    extractedText saved = Some text /\
    generateAnswerFromContent question (Some text) = Ok result /\
    askHandler findById saveQuery newQueryId createdAt now
      documentId (JString question)
    = (mkResponse 200
         (AnswerBody question (resultAnswer result) newQueryId
            (resultConfidence result) now (resultSources result)
            "Real document content analysis"),
       Some {| Query.id := newQueryId;
               Query.documentId := _id saved;
               Query.question := question;
               Query.answer := resultAnswer result;
               Query.timestamp := createdAt;
               Query.confidence := resultConfidence result;
               Query.sources := match resultSources result with
                                | Some tags => tags
                                | None => []
                                end |}) /\
    (resultAnswer result = None <-> String.length (trim text) < 50) /\
    (resultConfidence result = None <-> String.length (trim text) < 50) /\
    (resultSources result = None <-> String.length (trim text) < 50).
Proof.
  intros Hproc Hfind Hid Hq Hsave.
  destruct (processHandler_saved_text _ _ _ _ _ _ _ Hproc)
    as [Hp [text [Ht Hlen]]].
  destruct (generate_total question (Some text)) as [result Hgen].
  exists text, result. split; [exact Ht|]. split; [exact Hgen|].
  split.
  - unfold askHandler.
    rewrite Hid, (truthy_string _ Hq). cbn [negb orb].
    rewrite Hfind, Hp, Ht. cbn [negb].
    rewrite (falsy_long_trim text 9) by lia.
    rewrite Hgen, Hsave. reflexivity.
  - destruct (Nat.lt_ge_cases (String.length (trim text)) 50) as [Hs|Hl].
    + rewrite generate_unusable in Hgen by (right; now exists text).
      injection Hgen as <-. simpl. tauto.
    + destruct (generate_usable_full question text Hl) as [r Hr].
      rewrite Hr in Hgen. injection Hgen as <-. simpl.
      repeat split; intros; try discriminate; lia.
Qed.

(** X7: a document as the upload handler stores it is not yet processed:
    whatever truthy values the request gives as document id and question,
    the ask handler answers 400 "Document not processed yet" and saves no
    query. *)
Theorem ask_before_process (save : Document -> Js unit) (newId : string)
    (uploadedAt : nat) (file : option MulterFile)
    (documentId question : JsonValue) (stored : Document) :
  snd (uploadHandler save newId uploadedAt file) = Some stored ->
  findById documentId = Ok (Some stored) ->
  truthy documentId = true ->
  truthy question = true ->
  askHandler findById saveQuery newQueryId createdAt now documentId question
  = (mkResponse 400 (ErrorBody "Document not processed yet"), None).
Proof.
  intros Hup Hfind Hid Hq.
  assert (Hp : processed stored = false).
  { revert Hup. unfold uploadHandler. destruct file as [f|]; [|discriminate].
    destruct (save _) as [[]|e]; [|discriminate].
    simpl. now intros [= <-]. }
  unfold askHandler. rewrite Hid, Hq. cbn [negb orb].
  rewrite Hfind, Hp. reflexivity.
Qed.

(** X8: the ask handler answers 500 only when the database fails, on the
    lookup of the document or on the save of the query, or when the
    question of the request is a truthy value that is not a string; on a
    string question the answer generator never makes it fail. *)
Theorem ask_failure_causes (documentId question : JsonValue) :
  status (fst (askHandler findById saveQuery newQueryId createdAt now
                 documentId question)) = 500 ->
  (exists e, findById documentId = Throw e) \/
  (exists query e, saveQuery query = Throw e) \/
  (truthy question = true /\ forall s, question <> JString s).
Proof.
  unfold askHandler.
  destruct (negb (truthy documentId) || negb (truthy question)) eqn:T;
    [cbn [fst status]; discriminate|].
  apply orb_false_iff in T. destruct T as [_ Tq].
  apply negb_false_iff in Tq.
  destruct (findById documentId) as [[document|]|e] eqn:F;
    try (cbn [fst status]; discriminate).
  - destruct (negb (processed document)); [cbn [fst status]; discriminate|].
    destruct (falsy (extractedText document));
      [cbn [fst status]; discriminate|].
    destruct question as [| |b|q|q|items|members];
      try (intros _; right; right; split; [exact Tq | discriminate]).
    destruct (generate_total q (extractedText document)) as [result ->].
    destruct (saveQuery _) as [[]|e] eqn:S; [cbn [fst status]; discriminate|].
    intros _. right. left. eauto.
  - intros _. left. eauto.
Qed.

End AskFacts.

Lemma ask_after_process_witness :
  exists text result,
    extractedText (sampleProcessed "Hello there, reader.") = Some text /\
    generateAnswerFromContent "Who is greeted?" (Some text) = Ok result /\
    askHandler (fun _ => Ok (Some (sampleProcessed "Hello there, reader.")))
      (fun _ => Ok tt) "q-1" 1800 "2026-01-01T00:00:00.000Z"
      (JString "65f0c0ffee") (JString "Who is greeted?")
    = (mkResponse 200
         (AnswerBody "Who is greeted?" (resultAnswer result) "q-1"
            (resultConfidence result) "2026-01-01T00:00:00.000Z"
            (resultSources result) "Real document content analysis"),
       Some {| Query.id := "q-1";
               Query.documentId := _id (sampleProcessed "Hello there, reader.");
               Query.question := "Who is greeted?";
               Query.answer := resultAnswer result;
               Query.timestamp := 1800;
               Query.confidence := resultConfidence result;
               Query.sources := match resultSources result with
                                | Some tags => tags
                                | None => []
                                end |}) /\
    (resultAnswer result = None <-> String.length (trim text) < 50) /\
    (resultConfidence result = None <-> String.length (trim text) < 50) /\
    (resultSources result = None <-> String.length (trim text) < 50).
Proof.
  apply (ask_after_process
           (fun _ => Ok (Some (sampleProcessed "Hello there, reader.")))
           (fun _ => Ok tt) "q-1" 1800 "2026-01-01T00:00:00.000Z"
           (fun _ => Throw "no pdf") (fun _ => Throw "no docx")
           (fun _ => Ok "Hello there, reader.")
           (fun _ => Ok (Some (sampleDocument "notes.txt" false None)))
           (fun _ => Ok tt)
           "65f0c0ffee" "Who is greeted?" (JString "65f0c0ffee")
           (sampleProcessed "Hello there, reader.")).
  - reflexivity.
  - reflexivity.
  - reflexivity.
  - discriminate.
  - reflexivity.
Defined.

Lemma ask_before_process_witness :
  askHandler (fun _ => Ok (Some (sampleDocument "notes.txt" false None)))
    (fun _ => Ok tt) "q-1" 1800 "2026-01-01T00:00:00.000Z"
    (JString "65f0c0ffee") (JNumber 123)
  = (mkResponse 400 (ErrorBody "Document not processed yet"), None).
Proof.
  apply (ask_before_process
           (fun _ => Ok (Some (sampleDocument "notes.txt" false None)))
           (fun _ => Ok tt) "q-1" 1800 "2026-01-01T00:00:00.000Z"
           (fun _ => Ok tt) "65f0c0ffee" 1700
           (Some (mkMulterFile "1700000000000-42" "notes.txt"
                    "uploads/1700000000000-42" 2048))
           (JString "65f0c0ffee") (JNumber 123)
           (sampleDocument "notes.txt" false None)).
  - reflexivity.
  - reflexivity.
  - reflexivity.
  - reflexivity.
Defined.

Lemma ask_failure_causes_witness :
  (exists e, (fun _ : JsonValue =>
                Ok (Some (sampleProcessed "Hello there, reader.")))
               (JString "65f0c0ffee") = Throw e) \/
  (exists query e, (fun _ : Query.t => Ok tt) query = Throw e) \/
  (truthy (JNumber 123) = true /\ forall s, JNumber 123 <> JString s).
Proof.
  apply (ask_failure_causes
           (fun _ => Ok (Some (sampleProcessed "Hello there, reader.")))
           (fun _ => Ok tt)
           "q-1" 1800 "2026-01-01T00:00:00.000Z"
           (JString "65f0c0ffee") (JNumber 123)).
  reflexivity.
Defined.

(** ** Query routes and the document router *)

(** X9: the history route of [src/server.js] is declared with the segment
    [:documentId] and reads [req.params.id], which that pattern never
    binds: the filter value is undefined and the response is the same for
    every document id in the URL.  The router's route, declared with [:id],
    does pass the id of the URL to the filter. *)
Theorem history_ignores_document_id
    (findLatest findAll : option string -> Js (list Query.t))
    (id1 id2 : string) :
  historyHandler findLatest (historyParams id1)
    = historyHandler findLatest (historyParams id2) /\
  historyHandler findLatest (historyParams id1)
    = match findLatest None with
      | Ok queries => mkResponse 200 (QueriesBody queries)
      | Throw _ => mkResponse 500 (ErrorBody "Failed to fetch history")
      end /\
  documentQueriesHandler findAll (documentParams id1)
    = match findAll (Some id1) with
      | Ok queries => mkResponse 200 (QueriesBody queries)
      | Throw message => mkResponse 500 (ErrorBody message)
      end.
Proof. repeat split. Qed.

Lemma removeFirst_length (id : string) (docs : list Document) (d : Document) :
  find (fun x => String.eqb (_id x) id) docs = Some d ->
  S (List.length (removeFirst id docs)) = List.length docs.
Proof.
  induction docs as [|x l IH]; simpl; [discriminate|].
  destruct (String.eqb (_id x) id); [reflexivity|].
  intros H. simpl. now rewrite IH.
Qed.

Lemma removeFirst_other (id : string) (docs : list Document) (d : Document) :
  _id d <> id -> (In d (removeFirst id docs) <-> In d docs).
Proof.
  intros Hd. induction docs as [|x l IH]; simpl; [tauto|].
  destruct (String.eqb_spec (_id x) id) as [E|E].
  - split; [tauto|]. intros [->|H]; [contradiction | assumption].
  - simpl. tauto.
Qed.

Lemma removeFirst_unique (id : string) (docs : list Document) :
  NoDup (map _id docs) ->
  find (fun x => String.eqb (_id x) id) (removeFirst id docs) = None.
Proof.
  induction docs as [|x l IH]; simpl; [reflexivity|].
  intros H. inversion H as [|? ? Hnotin Hnodup]; subst.
  destruct (String.eqb_spec (_id x) id) as [E|E].
  - destruct (find _ l) as [d|] eqn:F; [|reflexivity].
    apply find_some in F. destruct F as [Hin Heq].
    apply String.eqb_eq in Heq. exfalso. apply Hnotin.
    rewrite E, <- Heq. now apply in_map.
  - simpl. destruct (String.eqb_spec (_id x) id); [contradiction|]. now apply IH.
Qed.

(** X10: when no database call is rejected, deleting a document that
    exists answers 200, removes that one document and every query that
    refers to it, and keeps the other documents and the queries of other
    documents; deleting a document that does not exist answers 404 and
    leaves both collections as they were.  When the first call is rejected
    the handler answers 500 with the error's message and nothing changes.
    When the document is found and removed but the deletion of its queries
    is rejected, the handler answers 500 and the queries of the removed
    document stay. *)
Theorem delete_cascades_to_queries (rejects : DbCall -> option string)
    (id : string) (st : Store) :
  (forall message, rejects CallFindByIdAndDelete = Some message ->
   deleteDocumentHandler rejects id st
   = (mkResponse 500 (ErrorBody message), st)) /\
  (rejects CallFindByIdAndDelete = None -> findDocument id st = None ->
   deleteDocumentHandler rejects id st
   = (mkResponse 404 (ErrorBody "Document not found"), st)) /\
  (rejects CallFindByIdAndDelete = None -> findDocument id st <> None ->
   rejects CallDeleteMany = None ->
   fst (deleteDocumentHandler rejects id st)
     = mkResponse 200 (MessageBody "Document deleted successfully") /\
   S (List.length (documents (snd (deleteDocumentHandler rejects id st))))
     = List.length (documents st) /\
   (forall d, _id d <> id ->
      (In d (documents (snd (deleteDocumentHandler rejects id st)))
       <-> In d (documents st))) /\
   (forall q, In q (queries (snd (deleteDocumentHandler rejects id st)))
              <-> In q (queries st) /\ Query.documentId q <> id)) /\
  (forall message,
   rejects CallFindByIdAndDelete = None -> findDocument id st <> None ->
   rejects CallDeleteMany = Some message ->
   deleteDocumentHandler rejects id st
   = (mkResponse 500 (ErrorBody message),
      mkStore (removeFirst id (documents st)) (queries st)) /\
   S (List.length (removeFirst id (documents st))) = List.length (documents st)).
Proof.
  unfold deleteDocumentHandler, findDocumentByIdAndDelete, deleteManyQueries.
  split; [|split; [|split]].
  - intros message ->. reflexivity.
  - intros -> ->. now destruct st.
  - intros -> Hfound ->.
    destruct (findDocument id st) as [d|] eqn:F; [|congruence]. simpl.
    split; [reflexivity|]. split; [now apply (removeFirst_length id _ d)|].
    split; [intros d' Hd'; now apply removeFirst_other|].
    intros q. rewrite filter_In, negb_true_iff, String.eqb_neq. tauto.
  - intros message -> Hfound ->.
    destruct (findDocument id st) as [d|] eqn:F; [|congruence].
    split; [reflexivity|]. now apply (removeFirst_length id _ d).
Qed.

Lemma delete_cascades_to_queries_witness :
  deleteDocumentHandler
    (fun call => match call with
                 | CallDeleteMany => Some "connection lost"
                 | _ => None
                 end)
    "65f0c0ffee"
    (mkStore [sampleProcessed "text"]
             [Query.mk "q-1" "65f0c0ffee" "q1" None 1800 None [];
              Query.mk "q-2" "other" "q2" None 1801 None []])
  = (mkResponse 500 (ErrorBody "connection lost"),
     mkStore (removeFirst "65f0c0ffee" (documents
                (mkStore [sampleProcessed "text"]
                   [Query.mk "q-1" "65f0c0ffee" "q1" None 1800 None [];
                    Query.mk "q-2" "other" "q2" None 1801 None []])))
             (queries
                (mkStore [sampleProcessed "text"]
                   [Query.mk "q-1" "65f0c0ffee" "q1" None 1800 None [];
                    Query.mk "q-2" "other" "q2" None 1801 None []]))) /\
  S (List.length (removeFirst "65f0c0ffee" (documents
                (mkStore [sampleProcessed "text"]
                   [Query.mk "q-1" "65f0c0ffee" "q1" None 1800 None [];
                    Query.mk "q-2" "other" "q2" None 1801 None []]))))
  = List.length (documents
                (mkStore [sampleProcessed "text"]
                   [Query.mk "q-1" "65f0c0ffee" "q1" None 1800 None [];
                    Query.mk "q-2" "other" "q2" None 1801 None []])).
Proof.
  apply (proj2 (proj2 (proj2 (delete_cascades_to_queries
           (fun call => match call with
                        | CallDeleteMany => Some "connection lost"
                        | _ => None
                        end)
           "65f0c0ffee"
           (mkStore [sampleProcessed "text"]
                    [Query.mk "q-1" "65f0c0ffee" "q1" None 1800 None [];
                     Query.mk "q-2" "other" "q2" None 1801 None []]))))
          "connection lost").
  - reflexivity.
  - discriminate.
  - reflexivity.
Defined.

(** X11: when the identifiers of the stored documents are distinct and the
    database rejects neither the removal of the document nor the later
    lookup, the router's [GET /documents/:id] answers 404 after
    [DELETE /documents/:id], also when the deletion of the queries was
    rejected.  When the removal is rejected the document is still there and
    GET answers what it would have answered before; when the lookup is
    rejected GET answers 500 with the error's message. *)
Theorem get_after_delete_not_found
    (rejectsDelete rejectsGet : DbCall -> option string)
    (id : string) (st : Store) :
  (NoDup (map _id (documents st)) ->
   rejectsDelete CallFindByIdAndDelete = None ->
   rejectsGet CallFindById = None ->
   getDocumentHandler rejectsGet id (snd (deleteDocumentHandler rejectsDelete id st))
   = mkResponse 404 (ErrorBody "Document not found")) /\
  (forall message, rejectsDelete CallFindByIdAndDelete = Some message ->
   getDocumentHandler rejectsGet id (snd (deleteDocumentHandler rejectsDelete id st))
   = getDocumentHandler rejectsGet id st) /\
  (forall message, rejectsGet CallFindById = Some message ->
   getDocumentHandler rejectsGet id (snd (deleteDocumentHandler rejectsDelete id st))
   = mkResponse 500 (ErrorBody message)).
Proof.
  unfold getDocumentHandler, findDocumentById, deleteDocumentHandler,
    findDocumentByIdAndDelete, deleteManyQueries.
  split; [|split].
  - intros Hnd -> ->.
    destruct (findDocument id st) as [d|] eqn:F.
    + destruct (rejectsDelete CallDeleteMany); simpl;
        unfold findDocument; simpl; now rewrite removeFirst_unique.
    + simpl. now rewrite F.
  - intros message ->. reflexivity.
  - intros message ->. reflexivity.
Qed.

Lemma get_after_delete_not_found_witness :
  getDocumentHandler healthy "65f0c0ffee"
    (snd (deleteDocumentHandler healthy "65f0c0ffee"
            (mkStore [sampleProcessed "text"]
                     [Query.mk "q-1" "65f0c0ffee" "q" None 1800 None []])))
  = mkResponse 404 (ErrorBody "Document not found").
Proof.
  apply (proj1 (get_after_delete_not_found healthy healthy "65f0c0ffee"
           (mkStore [sampleProcessed "text"]
                    [Query.mk "q-1" "65f0c0ffee" "q" None 1800 None []]))).
  - simpl. constructor; [intros [] | constructor].
  - reflexivity.
  - reflexivity.
Defined.

(** ** The file list of the client *)

(** X12: the client offers for upload exactly the MIME types the server's
    upload filter admits. *)
Theorem client_and_server_accept_same_types (f : Client.BrowserFile.t) :
  Client.isFileTypeSupported f = true
  <-> fileFilter (Client.BrowserFile.type f) = Ok true.
Proof.
  unfold Client.isFileTypeSupported, fileFilter.
  change Client.supportedTypes with allowedTypes.
  destruct (existsb (String.eqb (Client.BrowserFile.type f)) allowedTypes);
    split; congruence.
Qed.

(** X13: every file type the client accepts gets an icon of its own: "pdf",
    "word" for both Word types, or "alt" for plain text; the default icon
    "file" is never shown for an accepted file. *)
Theorem accepted_types_have_icons (f : Client.BrowserFile.t) :
  Client.isFileTypeSupported f = true ->
  In (Client.getFileIcon (Client.BrowserFile.type f)) ["pdf"; "word"; "alt"] /\
  (includes (Client.BrowserFile.type f) "word" = true ->
   Client.getFileIcon (Client.BrowserFile.type f) = "word").
Proof.
  unfold Client.isFileTypeSupported. intros H.
  apply existsb_exists in H. destruct H as [t [Hin Heq]].
  apply String.eqb_eq in Heq. rewrite Heq. clear Heq.
  simpl in Hin.
  destruct Hin as [<-|[<-|[<-|[<-|[]]]]]; vm_compute;
    (split; [tauto | intros; reflexivity || discriminate]).
Qed.

Lemma accepted_types_have_icons_witness :
  In (Client.getFileIcon "application/msword") ["pdf"; "word"; "alt"] /\
  (includes "application/msword" "word" = true ->
   Client.getFileIcon "application/msword" = "word").
Proof.
  apply (accepted_types_have_icons
           (Client.BrowserFile.mk "thesis.doc" 2048 "application/msword")).
  reflexivity.
Defined.

Section FileListFacts.

Variable formatFileSize : nat -> string.
Variable generateId : nat -> string.
Variable dateAt : nat -> nat.

(** The stored size is a string and the size of a [File] is a number, so
    the test for an already uploaded file finds none. *)
Lemma already_uploaded_never (f : Client.BrowserFile.t)
    (files : list Client.UploadedFile) :
  existsb (fun u => String.eqb (Client.name u) (Client.BrowserFile.name f)
                    && Client.strictEquals (Client.VString (Client.size u))
                         (Client.VNumber (Client.BrowserFile.size f)))
          files = false.
Proof.
  induction files as [|u l IH]; [reflexivity|].
  simpl. rewrite andb_false_r. exact IH.
Qed.

Lemma processOne_effect (f : Client.BrowserFile.t) (st : Client.State) :
  map Client.name
      (Client.uploadedFiles
         (Client.processOne formatFileSize generateId dateAt f st))
  = map Client.name (Client.uploadedFiles st)
    ++ map Client.BrowserFile.name (filter Client.isFileTypeSupported [f]) /\
  exists kind,
    (kind = "error" \/ kind = "success") /\
    exists message,
      Client.notifications
        (Client.processOne formatFileSize generateId dateAt f st)
      = Client.notifications st ++ [(message, kind)].
Proof.
  unfold Client.processOne. rewrite already_uploaded_never.
  cbn [filter]. destruct (Client.isFileTypeSupported f); cbn [negb].
  - split.
    + simpl. now rewrite map_app.
    + exists "success". split; [now right|]. now eexists.
  - split.
    + simpl. now rewrite app_nil_r.
    + exists "error". split; [now left|]. now eexists.
Qed.

(** X14: [processFiles] never finds a file already uploaded, because it
    compares the stored, formatted size with the number of bytes: every
    file of a supported type is appended, in order, even when a file of
    the same name and size is in the list, and the only notifications it
    adds are of kind "error" or "success", never the warning "File already
    uploaded". *)
Theorem processFiles_never_detects_duplicates
    (files : list Client.BrowserFile.t) (st : Client.State) :
  map Client.name
      (Client.uploadedFiles
         (Client.processFiles formatFileSize generateId dateAt files st))
  = map Client.name (Client.uploadedFiles st)
    ++ map Client.BrowserFile.name (filter Client.isFileTypeSupported files) /\
  exists added,
    Client.notifications
      (Client.processFiles formatFileSize generateId dateAt files st)
    = Client.notifications st ++ added /\
    List.length added = List.length files /\
    forall n, In n added -> snd n = "error" \/ snd n = "success".
Proof.
  revert st. induction files as [|f rest IH]; intros st.
  - simpl. rewrite app_nil_r. split; [reflexivity|].
    exists []. rewrite app_nil_r. repeat split. intros n [].
  - cbn [Client.processFiles].
    destruct (IH (Client.processOne formatFileSize generateId dateAt f st))
      as [Hnames [added [Hnotes [Hlen Hkinds]]]].
    destruct (processOne_effect f st) as [Hone [kind [Hkind [message Hnote]]]].
    split.
    + rewrite Hnames, Hone, <- app_assoc, <- map_app, <- filter_app.
      reflexivity.
    + exists ((message, kind) :: added). split; [|split].
      * rewrite Hnotes, Hnote, <- app_assoc. reflexivity.
      * simpl. now rewrite Hlen.
      * intros n [<-|Hn]; [exact Hkind | now apply Hkinds].
Qed.

End FileListFacts.

(** X15: [removeFile] removes every entry with the given id and no other,
    keeps the order of the rest, changes nothing but the notifications when
    no entry has the id, and removes nothing more when repeated. *)
Theorem removeFile_removes_by_id (fileId : string) (st : Client.State) :
  (forall f, In f (Client.uploadedFiles (Client.removeFile fileId st))
             <-> In f (Client.uploadedFiles st) /\ Client.id f <> fileId) /\
  ((forall f, In f (Client.uploadedFiles st) -> Client.id f <> fileId) ->
   Client.uploadedFiles (Client.removeFile fileId st) = Client.uploadedFiles st) /\
  Client.uploadedFiles (Client.removeFile fileId (Client.removeFile fileId st))
    = Client.uploadedFiles (Client.removeFile fileId st).
Proof.
  unfold Client.removeFile. simpl. split; [|split].
  - intros f. rewrite filter_In, negb_true_iff, String.eqb_neq. tauto.
  - intros H. apply forallb_filter_id. apply forallb_forall.
    intros f Hf. apply negb_true_iff, String.eqb_neq. now apply H.
  - induction (Client.uploadedFiles st) as [|x l IH]; [reflexivity|].
    simpl. destruct (negb (String.eqb (Client.id x) fileId)) eqn:E; simpl.
    + rewrite E. now f_equal.
    + exact IH.
Qed.

Lemma removeFile_removes_by_id_witness :
  Client.uploadedFiles
    (Client.removeFile "missing"
       (Client.mkState
          [Client.mkUploadedFile "k1" None "a.txt" "1 KB" "text/plain" 1700]
          [] 1))
  = [Client.mkUploadedFile "k1" None "a.txt" "1 KB" "text/plain" 1700].
Proof.
  apply (proj1 (proj2 (removeFile_removes_by_id "missing"
    (Client.mkState
       [Client.mkUploadedFile "k1" None "a.txt" "1 KB" "text/plain" 1700]
       [] 1)))).
  intros f [<-|[]]. discriminate.
Defined.

(** ** The generator as a whole *)

Lemma lowerUnit_idempotent (c : ascii) : lowerUnit (lowerUnit c) = lowerUnit c.
Proof.
  destruct c as [[] [] [] [] [] [] [] []]; reflexivity.
Qed.

Lemma toLowerCase_idempotent (s : string) :
  toLowerCase (toLowerCase s) = toLowerCase s.
Proof.
  induction s as [|c s IH]; simpl; [reflexivity|].
  now rewrite lowerUnit_idempotent, IH.
Qed.

Lemma getQuestionType_toLowerCase (question : string) :
  getQuestionType (toLowerCase question) = getQuestionType question.
Proof. unfold getQuestionType. now rewrite toLowerCase_idempotent. Qed.

Lemma generateFallbackAnswer_toLowerCase (question : string) :
  generateFallbackAnswer (toLowerCase question) = generateFallbackAnswer question.
Proof.
  unfold generateFallbackAnswer. now rewrite getQuestionType_toLowerCase.
Qed.

(** X16: the generator does not look at the case of the question: a
    question and its lower-cased form get the same result on every
    document text. *)
Theorem question_case_is_ignored (question : string)
    (documentText : option string) :
  generateAnswerFromContent (toLowerCase question) documentText
  = generateAnswerFromContent question documentText.
Proof.
  unfold generateAnswerFromContent, generateContextualAnswer, questionWordsOf.
  rewrite !toLowerCase_idempotent, !generateFallbackAnswer_toLowerCase,
    !getQuestionType_toLowerCase.
  reflexivity.
Qed.

Lemma generateContextualAnswer_records (question text : string) :
  (exists context, generateContextualAnswer question text
                   = Ok (Full (mentionsRecord context))) \/
  generateContextualAnswer question text = Ok (Full (fallbackRecord question)).
Proof.
  destruct (candidateSentences text) as [|first rest] eqn:E.
  - right. now apply contextual_without_candidates.
  - left. rewrite (contextual_with_candidates _ _ _ _ E). now eexists.
Qed.

(** X17: whenever the generator returns a record, its confidence lies
    between 0.6 and 0.95, and its sources are a single tag out of four; a
    record is returned exactly when the text has at least 50 units after
    trimming. *)
Theorem record_confidence_and_sources (question text : string)
    (r : AnswerRecord) :
  generateAnswerFromContent question (Some text) = Ok (Full r) ->
  (0.6 <= confidence r)%Q /\ (confidence r <= 0.95)%Q /\
  In (sources r) [["Document Content Analysis"]; ["Document Introduction"];
                  ["Relevant Document Section"]; ["General Document Analysis"]] /\
  50 <= String.length (trim text).
Proof.
  intros H.
  destruct (Nat.lt_ge_cases (String.length (trim text)) 50) as [Hs|Hl].
  { rewrite generate_unusable in H by (right; now exists text). discriminate. }
  destruct (relevantSentencesOf (questionWordsOf question)
              (candidateSentences text)) as [|best others] eqn:E.
  - rewrite (generate_irrelevant _ _ Hl E) in H.
    destruct (includes (toLowerCase question) "summary"
              || includes (toLowerCase question) "overview").
    + injection H as <-. simpl. repeat split; try discriminate; auto.
    + destruct (generateContextualAnswer_records question text) as [[c Hc]|Hc];
        rewrite Hc in H; injection H as <-; simpl;
        repeat split; try discriminate; auto.
  - rewrite (generate_relevant _ _ _ _ Hl E) in H. injection H as <-.
    cbn [confidence sources]. split; [|split; [|split]].
    + apply Qle_trans with (relevantConfidence 0).
      * vm_compute. discriminate.
      * apply relevantConfidence_mono. lia.
    + apply relevantConfidence_cap.
    + simpl. auto.
    + exact Hl.
Qed.

Lemma record_confidence_and_sources_witness :
  (0.6 <= 0.75)%Q /\ (0.75 <= 0.95)%Q /\
  In ["Relevant Document Section"]
     [["Document Content Analysis"]; ["Document Introduction"];
      ["Relevant Document Section"]; ["General Document Analysis"]] /\
  50 <= String.length (trim "The cat sat on the mat. It was a sunny day outside.").
Proof.
  apply (record_confidence_and_sources "What did the cat sit on?"
           "The cat sat on the mat. It was a sunny day outside."
           {| answer := "The document mentions: The cat sat on the mat";
              confidence := 0.75%Q;
              sources := ["Relevant Document Section"] |}).
  vm_compute. reflexivity.
Defined.
